(** * EdgeRouter configuration backup: a shallow embedding of
      [edgerouter-backup.py] and the properties of its backup pipeline.

    The program is a Python script.  Its pure parts (glob matching, the
    string surgery on file names, date parsing and arithmetic) are plain
    functions.  Its effectful parts (the file system, the SSH session, the
    Git repository, logging) are written in a small state-and-exception
    monad over a [world]; what the outside answers (does the connection
    succeed, does [git add] fail, what does [statvfs] report) is read from
    an [env] record that is universally quantified in the theorems. *)

From Stdlib Require Import String Ascii List ZArith Lia Bool DecimalString RelationClasses.
Import ListNotations.

Local Open Scope string_scope.
Local Open Scope list_scope.
Local Open Scope Z_scope.

(* ===================================================================== *)
(** * Python string helpers *)
(* ===================================================================== *)

Module PyStr.

Definition chr (c : ascii) : string := String c EmptyString.

Definition is_empty (s : string) : bool :=
  match s with EmptyString => true | String _ _ => false end.

(** [sep] is a prefix of [s] *)
Definition startswith (sep s : string) : bool := String.prefix sep s.

(** [needle in s] *)
Fixpoint contains (needle s : string) : bool :=
  startswith needle s ||
  match s with
  | EmptyString => false
  | String _ r => contains needle r
  end.

(** [s.split(sep)] for a non-empty separator: left to right,
    non-overlapping.  [skip] counts the characters of a separator that
    was just recognised and is still to be dropped. *)
Fixpoint split_go (sep s : string) (skip : nat) (cur : string) : list string :=
  match s with
  | EmptyString => [cur]
  | String c r =>
      match skip with
      | S k => split_go sep r k cur
      | O =>
          if startswith sep s
          then cur :: split_go sep r (String.length sep - 1) EmptyString
          else split_go sep r 0 (cur ++ chr c)
      end
  end.

Definition split (sep s : string) : list string := split_go sep s 0 EmptyString.

(** the part of [s] before the last occurrence of [c], if [c] occurs *)
Fixpoint before_last (c : ascii) (s : string) : option string :=
  match s with
  | EmptyString => None
  | String a r =>
      match before_last c r with
      | Some p => Some (String a p)
      | None => if Ascii.eqb a c then Some EmptyString else None
      end
  end.

(** [s.rsplit('.', 1)[0]] *)
Definition rsplit1_head (c : ascii) (s : string) : string :=
  match before_last c s with
  | Some p => p
  | None => s
  end.

(** [PurePath.stem]: the name without its last suffix; a leading or a
    trailing dot does not start a suffix. *)
Definition stem (name : string) : string :=
  match before_last "." name with
  | Some p =>
      if (0 <? String.length p)%nat && (String.length p <? String.length name - 1)%nat
      then p else name
  | None => name
  end.

Fixpoint last_char (s : string) : option ascii :=
  match s with
  | EmptyString => None
  | String c EmptyString => Some c
  | String _ r => last_char r
  end.

Definition endswith_char (c : ascii) (s : string) : bool :=
  match last_char s with
  | Some d => Ascii.eqb d c
  | None => false
  end.

Definition is_digit (c : ascii) : bool :=
  (48 <=? nat_of_ascii c)%nat && (nat_of_ascii c <=? 57)%nat.

Definition digit_val (c : ascii) : Z := Z.of_nat (nat_of_ascii c) - 48.

Definition digit_char (d : Z) : ascii := ascii_of_nat (Z.to_nat (48 + d mod 10)).

(** [str(n)] for a non-negative integer *)
Definition str_int (n : Z) : string :=
  NilZero.string_of_uint (N.to_uint (Z.to_N n)).

(** [f"{n:02d}"] and the four-digit [%Y] of [strftime], for the
    non-negative values a calendar date has *)
Definition pad2 (n : Z) : string :=
  if n <? 10 then String (digit_char 0) (str_int n) else str_int n.

Definition pad4 (n : Z) : string :=
  if n <? 10 then "000" ++ str_int n
  else if n <? 100 then "00" ++ str_int n
  else if n <? 1000 then "0" ++ str_int n
  else str_int n.

End PyStr.

(* ===================================================================== *)
(** * [fnmatch] patterns, as [pathlib.Path.glob] matches one path
      component *)
(* ===================================================================== *)

Module Glob.

Inductive citem :=
| CSingle (c : ascii)
| CRange (lo hi : ascii).

(** The only special characters of a pattern are [*], [?] and [[];
    braces and commas are ordinary characters: [fnmatch.translate]
    escapes them, and [glob] has no brace expansion. *)
Inductive tok :=
| Lit (c : ascii)
| Star
| Quest
| Class (negated : bool) (items : list citem).

(** text of a character class up to the closing bracket, and what
    follows it *)
Fixpoint until_rbracket (s : string) : option (string * string) :=
  match s with
  | EmptyString => None
  | String c r =>
      if Ascii.eqb c "]" then Some (EmptyString, r)
      else match until_rbracket r with
           | Some (b, r') => Some (String c b, r')
           | None => None
           end
  end.

(** [fnmatch] lets a bracket that comes first in the class stand for
    itself *)
Definition class_body (s : string) : option (string * string) :=
  match s with
  | String "]" r =>
      match until_rbracket r with
      | Some (b, r') => Some (String "]" b, r')
      | None => None
      end
  | _ => until_rbracket s
  end.

Fixpoint class_items (s : string) : list citem :=
  match s with
  | EmptyString => []
  | String lo (String "-" (String hi r)) => CRange lo hi :: class_items r
  | String c r => CSingle c :: class_items r
  end.

Fixpoint tokens_fuel (fuel : nat) (s : string) : list tok :=
  match fuel with
  | O => []
  | S fuel' =>
      match s with
      | EmptyString => []
      | String "*" r => Star :: tokens_fuel fuel' r
      | String "?" r => Quest :: tokens_fuel fuel' r
      | String "[" r =>
          let '(neg, r1) :=
            match r with
            | String "!" r1 => (true, r1)
            | _ => (false, r)
            end in
          match class_body r1 with
          | Some (b, rest) => Class neg (class_items b) :: tokens_fuel fuel' rest
          | None => Lit "[" :: tokens_fuel fuel' r
          end
      | String c r => Lit c :: tokens_fuel fuel' r
      end
  end.

(** every step consumes at least one character, so the length of the
    pattern is fuel enough *)
Definition tokens (s : string) : list tok := tokens_fuel (String.length s) s.

Definition citem_match (c : ascii) (i : citem) : bool :=
  match i with
  | CSingle d => Ascii.eqb c d
  | CRange lo hi =>
      (nat_of_ascii lo <=? nat_of_ascii c)%nat && (nat_of_ascii c <=? nat_of_ascii hi)%nat
  end.

Fixpoint matches (p : list tok) (s : string) {struct p} : bool :=
  match p with
  | [] => PyStr.is_empty s
  | Star :: p' =>
      (fix star (s : string) : bool :=
         matches p' s ||
         match s with
         | EmptyString => false
         | String _ r => star r
         end) s
  | Lit c :: p' =>
      match s with
      | String d r => Ascii.eqb d c && matches p' r
      | EmptyString => false
      end
  | Quest :: p' =>
      match s with
      | String _ r => matches p' r
      | EmptyString => false
      end
  | Class neg items :: p' =>
      match s with
      | String d r => xorb neg (existsb (citem_match d) items) && matches p' r
      | EmptyString => false
      end
  end.

Definition fnmatch (pattern name : string) : bool := matches (tokens pattern) name.

Fixpoint last_tok (p : list tok) : option tok :=
  match p with
  | [] => None
  | [t] => Some t
  | _ :: r => last_tok r
  end.

End Glob.

(* ===================================================================== *)
(** * Calendar dates: [datetime], [timedelta] and [strptime] *)
(* ===================================================================== *)

Module Dates.

(** A naive [datetime]: the calendar date and the time of day in
    microseconds since midnight. *)
Record datetime := { year : Z; month : Z; day : Z; usec : Z }.

Definition is_leap (y : Z) : bool :=
  (y mod 4 =? 0) && (negb (y mod 100 =? 0) || (y mod 400 =? 0)).

Definition days_in_month (y m : Z) : Z :=
  if m =? 2 then (if is_leap y then 29 else 28)
  else if (m =? 4) || (m =? 6) || (m =? 9) || (m =? 11) then 30
  else 31.

Definition days_before_year (y : Z) : Z :=
  let y1 := y - 1 in y1 * 365 + y1 / 4 - y1 / 100 + y1 / 400.

Fixpoint days_before_month_nat (y : Z) (m : nat) : Z :=
  match m with
  | O => 0
  | S k => days_before_month_nat y k + days_in_month y (Z.of_nat (S k))
  end.

Definition days_before_month (y m : Z) : Z :=
  days_before_month_nat y (Z.to_nat (m - 1)).

(** [date.toordinal()]: 1 is 0001-01-01 *)
Definition toordinal (y m d : Z) : Z :=
  days_before_year y + days_before_month y m + d.

Definition MINYEAR : Z := 1.
Definition MAXYEAR : Z := 9999.
Definition MAXORDINAL : Z := 3652059.
Definition MAX_DELTA_DAYS : Z := 999999999.

Definition valid_date (y m d : Z) : bool :=
  (MINYEAR <=? y) && (y <=? MAXYEAR) && (1 <=? m) && (m <=? 12) &&
  (1 <=? d) && (d <=? days_in_month y m).

(** What an ordering comparison of two naive datetimes looks at: the
    day number and the time of day. *)
Record instant := { ord : Z; tod : Z }.

Definition instant_of (t : datetime) : instant :=
  {| ord := toordinal (year t) (month t) (day t); tod := usec t |}.

Definition midnight (y m d : Z) : instant :=
  {| ord := toordinal y m d; tod := 0 |}.

(** [a < b] on datetimes *)
Definition instant_lt (a b : instant) : bool :=
  (ord a <? ord b) || ((ord a =? ord b) && (tod a <? tod b)).

(** [t - timedelta(days=n)]; [None] is [OverflowError]: the
    [timedelta] constructor refuses more than 999999999 days, and the
    subtraction refuses a result outside years 1 to 9999. *)
Definition minus_days (t : instant) (n : Z) : option instant :=
  if (Z.abs n <=? MAX_DELTA_DAYS) && (1 <=? ord t - n) && (ord t - n <=? MAXORDINAL)
  then Some {| ord := ord t - n; tod := tod t |}
  else None.

Definition in_range (lo hi c : ascii) : bool :=
  (nat_of_ascii lo <=? nat_of_ascii c)%nat && (nat_of_ascii c <=? nat_of_ascii hi)%nat.

(** The alternatives of the [%m] directive, [1[0-2]|0[1-9]|[1-9]], in
    the order the regular expression tries them: the value matched and
    the rest of the text. *)
Definition month_alts (s : string) : list (Z * string) :=
  (match s with
   | String a (String b r) =>
       if Ascii.eqb a "1" && in_range "0" "2" b then [(10 + PyStr.digit_val b, r)]
       else if Ascii.eqb a "0" && in_range "1" "9" b then [(PyStr.digit_val b, r)]
       else []
   | _ => []
   end) ++
  (match s with
   | String a r => if in_range "1" "9" a then [(PyStr.digit_val a, r)] else []
   | EmptyString => []
   end).

(** The alternatives of [%d], [3[01]|[12]\d|0[1-9]|[1-9]| [1-9]]. *)
Definition day_alts (s : string) : list (Z * string) :=
  (match s with
   | String a (String b r) =>
       if Ascii.eqb a "3" && in_range "0" "1" b then [(30 + PyStr.digit_val b, r)]
       else if in_range "1" "2" a && PyStr.is_digit b
            then [(10 * PyStr.digit_val a + PyStr.digit_val b, r)]
       else if Ascii.eqb a "0" && in_range "1" "9" b then [(PyStr.digit_val b, r)]
       else []
   | _ => []
   end) ++
  (match s with
   | String a r => if in_range "1" "9" a then [(PyStr.digit_val a, r)] else []
   | EmptyString => []
   end) ++
  (match s with
   | String " " (String b r) => if in_range "1" "9" b then [(PyStr.digit_val b, r)] else []
   | _ => []
   end).

Fixpoint first_some {A B : Type} (f : A -> option B) (l : list A) : option B :=
  match l with
  | [] => None
  | x :: r => match f x with Some y => Some y | None => first_some f r end
  end.

(** [datetime.strptime(s, '%Y-%m-%d')]: the text must match
    [\d\d\d\d-%m-%d] from its start, nothing may remain after
    the match, and the fields must name a day of the calendar.
    [None] is [ValueError]. *)
Definition strptime (s : string) : option instant :=
  match s with
  | String a (String b (String c (String d (String "-" r)))) =>
      if PyStr.is_digit a && PyStr.is_digit b && PyStr.is_digit c && PyStr.is_digit d
      then
        let y := 1000 * PyStr.digit_val a + 100 * PyStr.digit_val b
                 + 10 * PyStr.digit_val c + PyStr.digit_val d in
        match
          first_some
            (fun mr : Z * string =>
               match snd mr with
               | String "-" r2 =>
                   match day_alts r2 with
                   | dr :: _ => Some (fst mr, dr)
                   | [] => None
                   end
               | _ => None
               end)
            (month_alts r)
        with
        | Some (m, (dd, rest)) =>
            if PyStr.is_empty rest && valid_date y m dd
            then Some (midnight y m dd) else None
        | None => None
        end
      else None
  | _ => None
  end.

(** [t.strftime('%Y-%m-%d')] *)
Definition strftime_ymd (t : datetime) : string :=
  PyStr.pad4 (year t) ++ "-" ++ PyStr.pad2 (month t) ++ "-" ++ PyStr.pad2 (day t).

End Dates.

(* ===================================================================== *)
(** * The world the script runs in *)
(* ===================================================================== *)

(** Exceptions, all of them subclasses of Python's [Exception]: what
    [except Exception] catches.  [Exception_ msg] is
    [raise Exception(msg)]. *)
Inductive exn :=
| Exception_ (msg : string)
| AuthenticationException
| SSHException
| GitCommandError
| InvalidGitRepositoryError
| ValueError (msg : string)
| IndexError
| OverflowError
| OSError.

Definition is_GitCommandError (e : exn) : bool :=
  match e with GitCommandError => true | _ => false end.

(** [str(e)] *)
Definition exn_text (e : exn) : string :=
  match e with
  | Exception_ msg => msg
  | AuthenticationException => "Authentication failed."
  | SSHException => "SSHException"
  | GitCommandError => "GitCommandError"
  | InvalidGitRepositoryError => "InvalidGitRepositoryError"
  | ValueError msg => msg
  | IndexError => "list index out of range"
  | OverflowError => "date value out of range"
  | OSError => "OSError"
  end.

(** An entry of a directory of the repository tree. *)
#[warnings="-register-all"]
Inductive node :=
| File (name : string)
| Dir (name : string) (children : list node).

Definition node_name (n : node) : string :=
  match n with File s => s | Dir s _ => s end.

Definition is_dir (n : node) : bool :=
  match n with File _ => false | Dir _ _ => true end.

Definition children (n : node) : list node :=
  match n with File _ => [] | Dir _ c => c end.

(** What the script looks at in a downloaded file: its size, whether
    [tarfile.open(.., 'r:gz')] accepts it, and its text. *)
Record file_data := { fd_size : Z; fd_targz : bool; fd_text : string }.

Inductive level := INFO | WARNING | ERROR.

(** What the run did or tried, newest first in the trace.  An event is
    recorded when the operation is attempted, whether or not it then
    succeeds.  A log message is the source's message text; interpolated
    values are left as the source's placeholders. *)
Inductive event :=
| EvLog (l : level) (msg : string)
| EvMkdirRoot
| EvStatvfs
| EvConnect (host : string)
| EvExec (cmd : string)
| EvSftpGet (remote_path local_path : string)
| EvMkdtemp
| EvMkdirDate (y m : string)
| EvCopy (src : string) (dest : list string)
| EvGitInit
| EvCreateRemote (url : string)
| EvGitOpen
| EvGitAdd
| EvIsDirty
| EvCommit (msg : string)
| EvRemoteLookup
| EvPush
| EvGlob (dir : list string) (pattern : string)
| EvUnlink (path : list string)
| EvNotify (title msg : string)
| EvSshClose
| EvRmtree (dir : string).

(** Events that talk to the router or to the Git remote. *)
Definition is_network (e : event) : bool :=
  match e with
  | EvConnect _ | EvExec _ | EvSftpGet _ _ | EvPush => true
  | _ => false
  end.

Record world := mkWorld {
  root_exists : bool;                       (* the repository root is a directory *)
  tree : list node;                         (* what the repository root holds *)
  git_dir : bool;                           (* [repo_path / '.git'] exists *)
  commits : list string;                    (* messages of the commits, newest first *)
  pushes : nat;                             (* pushes that went through *)
  temp_exists : bool;                       (* the [mkdtemp] directory is on disk *)
  temp_files : list (string * file_data);   (* the files in it *)
  ssh_open : bool;
  v_ssh : bool;                             (* [run_backup]'s local [ssh] is set *)
  v_temp_dir : option string;               (* [run_backup]'s local [temp_dir] *)
  v_changed : bool;                         (* [git_commit_and_push]'s local [changed] *)
  trace : list event
}.

Definition set_root_exists (b : bool) (w : world) : world :=
  mkWorld b (tree w) (git_dir w) (commits w) (pushes w) (temp_exists w) (temp_files w)
          (ssh_open w) (v_ssh w) (v_temp_dir w) (v_changed w) (trace w).
Definition set_tree (t : list node) (w : world) : world :=
  mkWorld (root_exists w) t (git_dir w) (commits w) (pushes w) (temp_exists w) (temp_files w)
          (ssh_open w) (v_ssh w) (v_temp_dir w) (v_changed w) (trace w).
Definition set_git_dir (b : bool) (w : world) : world :=
  mkWorld (root_exists w) (tree w) b (commits w) (pushes w) (temp_exists w) (temp_files w)
          (ssh_open w) (v_ssh w) (v_temp_dir w) (v_changed w) (trace w).
Definition set_commits (c : list string) (w : world) : world :=
  mkWorld (root_exists w) (tree w) (git_dir w) c (pushes w) (temp_exists w) (temp_files w)
          (ssh_open w) (v_ssh w) (v_temp_dir w) (v_changed w) (trace w).
Definition set_pushes (n : nat) (w : world) : world :=
  mkWorld (root_exists w) (tree w) (git_dir w) (commits w) n (temp_exists w) (temp_files w)
          (ssh_open w) (v_ssh w) (v_temp_dir w) (v_changed w) (trace w).
Definition set_temp (b : bool) (fs : list (string * file_data)) (w : world) : world :=
  mkWorld (root_exists w) (tree w) (git_dir w) (commits w) (pushes w) b fs
          (ssh_open w) (v_ssh w) (v_temp_dir w) (v_changed w) (trace w).
Definition set_ssh_open (b : bool) (w : world) : world :=
  mkWorld (root_exists w) (tree w) (git_dir w) (commits w) (pushes w) (temp_exists w) (temp_files w)
          b (v_ssh w) (v_temp_dir w) (v_changed w) (trace w).
Definition set_v_ssh (b : bool) (w : world) : world :=
  mkWorld (root_exists w) (tree w) (git_dir w) (commits w) (pushes w) (temp_exists w) (temp_files w)
          (ssh_open w) b (v_temp_dir w) (v_changed w) (trace w).
Definition set_v_temp_dir (d : option string) (w : world) : world :=
  mkWorld (root_exists w) (tree w) (git_dir w) (commits w) (pushes w) (temp_exists w) (temp_files w)
          (ssh_open w) (v_ssh w) d (v_changed w) (trace w).
Definition set_v_changed (b : bool) (w : world) : world :=
  mkWorld (root_exists w) (tree w) (git_dir w) (commits w) (pushes w) (temp_exists w) (temp_files w)
          (ssh_open w) (v_ssh w) (v_temp_dir w) b (trace w).
Definition add_event (e : event) (w : world) : world :=
  mkWorld (root_exists w) (tree w) (git_dir w) (commits w) (pushes w) (temp_exists w) (temp_files w)
          (ssh_open w) (v_ssh w) (v_temp_dir w) (v_changed w) (e :: trace w).

(** The configuration, as [load_config] hands it over. *)
Record config := {
  host : string;
  repo_path : string;
  remote : string;
  auto_push : bool;
  formats : list string;
  retention_days : Z;
  on_success : bool;
  on_changes : bool;
  on_failure : bool;
  macos_native : bool
}.

(** What the outside answers during one run.  [None] (or [inr]) is
    success, [Some e] (or [inl e]) the exception the call raises. *)
Record env := {
  now : Dates.datetime;                   (* [datetime.now()] *)
  tmp_name : string;                      (* the directory [mkdtemp] makes *)
  ans_mkdir_root : option exn;
  ans_statvfs : exn + (Z * Z);            (* [f_bavail], [f_frsize] *)
  ans_connect : option exn;
  ans_mkdtemp : option exn;
  ans_exec : option exn;
  ans_sftp_get : exn + file_data;         (* what the transfer stores *)
  ans_mkdir_date : option exn;
  ans_copy : option exn;
  ans_git_init : option exn;
  ans_create_remote : option exn;
  ans_git_open : option exn;
  ans_git_add : option exn;
  tree_differs : bool;                    (* the working tree differs from the last commit *)
  ans_is_dirty : option exn;              (* [repo.is_dirty] fails *)
  ans_commit : option exn;
  ans_remote : option exn;
  ans_push : option exn;
  ans_scan : list string -> option exn;   (* listing a directory of the repository *)
  ans_unlink : list string -> option exn;
  ans_osascript : option exn
}.

(* ===================================================================== *)
(** * State and exceptions *)
(* ===================================================================== *)

Inductive result (A : Type) :=
| Ret (a : A)
| Raise (e : exn).
Arguments Ret {A} a.
Arguments Raise {A} e.

Definition M (A : Type) : Type := world -> result A * world.

Definition ret {A} (a : A) : M A := fun w => (Ret a, w).

Definition bind {A B} (m : M A) (k : A -> M B) : M B :=
  fun w =>
    match m w with
    | (Ret a, w') => k a w'
    | (Raise e, w') => (Raise e, w')
    end.

Definition raise {A} (e : exn) : M A := fun w => (Raise e, w).

(** [try: m  except Exception as e: h e] *)
Definition try_except {A} (m : M A) (h : exn -> M A) : M A :=
  fun w =>
    match m w with
    | (Ret a, w') => (Ret a, w')
    | (Raise e, w') => h e w'
    end.

(** [try: m  finally: f]: [f] runs on every way out of [m]; what [m]
    returned or raised stands unless [f] itself raises. *)
Definition try_finally {A} (m : M A) (f : M unit) : M A :=
  fun w =>
    match m w with
    | (r, w') =>
        match f w' with
        | (Ret _, w'') => (r, w'')
        | (Raise e, w'') => (Raise e, w'')
        end
    end.

Declare Scope py_scope.
Delimit Scope py_scope with py.
Notation "x <- m ;; k" := (bind m (fun x => k))
  (at level 61, m at next level, right associativity) : py_scope.
Notation "m ;; k" := (bind m (fun _ => k))
  (at level 61, right associativity) : py_scope.
Local Open Scope py_scope.

Definition get {A} (f : world -> A) : M A := fun w => (Ret (f w), w).
Definition modify (f : world -> world) : M unit := fun w => (Ret tt, f w).
Definition emit (e : event) : M unit := modify (add_event e).
Definition log (l : level) (msg : string) : M unit := emit (EvLog l msg).

(** the call goes through or raises what the outside answers *)
Definition answer (a : option exn) : M unit :=
  match a with
  | Some e => raise e
  | None => ret tt
  end.

(** a [for] loop whose body updates one variable *)
Fixpoint for_fold {X S : Type} (l : list X) (body : X -> S -> M S) (s : S) : M S :=
  match l with
  | [] => ret s
  | x :: r => s' <- body x s ;; for_fold r body s'
  end.

(** a [for] loop *)
Definition for_each {X : Type} (l : list X) (body : X -> M unit) : M unit :=
  for_fold l (fun x _ => body x) tt.

(* ===================================================================== *)
(** * The repository tree *)
(* ===================================================================== *)

Definition is_file_named (f : string) (n : node) : bool :=
  match n with
  | File s => String.eqb s f
  | Dir _ _ => false
  end.

(** Rewrite the directory [name] of a listing with [k]; [absent] is
    what a listing without that name gets appended.  [None] when the
    name is taken by a file, or when [k] or [absent] refuse. *)
Fixpoint with_dir (name : string) (absent : option (list node))
    (k : list node -> option (list node)) (l : list node) : option (list node) :=
  match l with
  | [] => absent
  | File s :: r =>
      if String.eqb s name then None
      else option_map (cons (File s)) (with_dir name absent k r)
  | Dir s c :: r =>
      if String.eqb s name then option_map (fun c' => Dir s c' :: r) (k c)
      else option_map (cons (Dir s c)) (with_dir name absent k r)
  end.

(** [mkdir(parents=True, exist_ok=True)] of [<root>/y/m] *)
Definition tree_mkdirs (y m : string) (t : list node) : option (list node) :=
  with_dir y (Some [Dir y [Dir m []]]) (with_dir m (Some [Dir m []]) Some) t.

(** a file written into a listing: a new entry, or the old one overwritten *)
Definition put_file (f : string) (l : list node) : list node :=
  if existsb (fun n => String.eqb (node_name n) f) l then l else l ++ [File f].

Definition tree_put (y m f : string) (t : list node) : option (list node) :=
  with_dir y None (with_dir m None (fun l => Some (put_file f l))) t.

Definition tree_remove (y m f : string) (t : list node) : option (list node) :=
  with_dir y None
    (with_dir m None
       (fun l => if existsb (is_file_named f) l
                 then Some (filter (fun n => negb (is_file_named f n)) l)
                 else None))
    t.

Fixpoint lookup {V : Type} (k : string) (l : list (string * V)) : option V :=
  match l with
  | [] => None
  | (k', v) :: r => if String.eqb k' k then Some v else lookup k r
  end.

Definition path_join (d f : string) : string := (d ++ "/" ++ f)%string.

(** [x in l] for a list of strings *)
Definition listed (x : string) (l : list string) : bool := existsb (String.eqb x) l.

(* ===================================================================== *)
(** * The operations of the outside world *)
(* ===================================================================== *)

Section Program.

Variable orc : env.

(** [repo_path.mkdir(parents=True, exist_ok=True)] *)
Definition mkdir_root : M unit :=
  emit EvMkdirRoot ;;
  answer (ans_mkdir_root orc) ;;
  modify (set_root_exists true).

(** [os.statvfs(path)]: the free bytes, [f_bavail * f_frsize] *)
Definition statvfs_bytes : M Z :=
  emit EvStatvfs ;;
  match ans_statvfs orc with
  | inl e => raise e
  | inr (bavail, frsize) => ret (bavail * frsize)
  end.

Definition ssh_connect (h : string) : M unit :=
  emit (EvConnect h) ;;
  answer (ans_connect orc) ;;
  modify (set_ssh_open true).

Definition ssh_close : M unit :=
  emit EvSshClose ;;
  modify (set_ssh_open false).

Definition mkdtemp : M string :=
  emit EvMkdtemp ;;
  answer (ans_mkdtemp orc) ;;
  modify (set_temp true []) ;;
  ret (tmp_name orc).

(** [shutil.rmtree(temp_dir)] *)
Definition rmtree (d : string) : M unit :=
  emit (EvRmtree d) ;;
  modify (set_temp false []).

(** [ssh.exec_command(cmd)] and the wait for its exit status *)
Definition exec_command (cmd : string) : M unit :=
  emit (EvExec cmd) ;;
  answer (ans_exec orc).

(** [open_sftp()], [sftp.get(remote, local)], [sftp.close()] *)
Definition sftp_get (remote_path local_path : string) : M unit :=
  emit (EvSftpGet remote_path local_path) ;;
  match ans_sftp_get orc with
  | inl e => raise e
  | inr d =>
      fs <- get temp_files ;;
      modify (set_temp true ((local_path, d) :: fs))
  end.

Definition path_exists (p : string) : M bool :=
  fs <- get temp_files ;;
  ret (match lookup p fs with Some _ => true | None => false end).

Definition getsize (p : string) : M Z :=
  fs <- get temp_files ;;
  match lookup p fs with
  | Some d => ret (fd_size d)
  | None => raise OSError
  end.

(** [tarfile.open(p, 'r:gz')] *)
Definition tarfile_open (p : string) : M unit :=
  fs <- get temp_files ;;
  match lookup p fs with
  | Some d => if fd_targz d then ret tt else raise OSError
  | None => raise OSError
  end.

Definition read_text (p : string) : M string :=
  fs <- get temp_files ;;
  match lookup p fs with
  | Some d => ret (fd_text d)
  | None => raise OSError
  end.

(** [date_path.mkdir(parents=True, exist_ok=True)] *)
Definition mkdir_date (y m : string) : M unit :=
  emit (EvMkdirDate y m) ;;
  answer (ans_mkdir_date orc) ;;
  t <- get tree ;;
  match tree_mkdirs y m t with
  | Some t' => modify (set_tree t')
  | None => raise OSError
  end.

(** [shutil.copy2(src, <root>/y/m/f)] *)
Definition copy2 (src y m f : string) : M unit :=
  emit (EvCopy src [y; m; f]) ;;
  answer (ans_copy orc) ;;
  present <- path_exists src ;;
  t <- get tree ;;
  match (if present then tree_put y m f t else None) with
  | Some t' => modify (set_tree t')
  | None => raise OSError
  end.

(** [Path.glob(pattern)] on a directory of the repository: its entries
    whose name matches *)
Definition glob (dir : list string) (entries : list node) (pattern : string)
  : M (list node) :=
  emit (EvGlob dir pattern) ;;
  answer (ans_scan orc dir) ;;
  ret (filter (fun n => Glob.fnmatch pattern (node_name n)) entries).

(** [backup_file.unlink()] *)
Definition unlink (y m : string) (n : node) : M unit :=
  emit (EvUnlink [y; m; node_name n]) ;;
  answer (ans_unlink orc [y; m; node_name n]) ;;
  t <- get tree ;;
  match (if is_dir n then None else tree_remove y m (node_name n) t) with
  | Some t' => modify (set_tree t')
  | None => raise OSError
  end.

Definition repo_init : M unit :=
  emit EvGitInit ;; answer (ans_git_init orc) ;; modify (set_git_dir true).

Definition create_remote (url : string) : M unit :=
  emit (EvCreateRemote url) ;; answer (ans_create_remote orc).

Definition repo_open : M unit :=
  emit EvGitOpen ;; answer (ans_git_open orc).

(** [repo.git.add('.')] *)
Definition git_add : M unit :=
  emit EvGitAdd ;; answer (ans_git_add orc).

(** [repo.is_dirty(untracked_files=True)] *)
Definition is_dirty : M bool :=
  emit EvIsDirty ;; answer (ans_is_dirty orc) ;; ret (tree_differs orc).

(** [repo.index.commit(msg)] *)
Definition index_commit (msg : string) : M unit :=
  emit (EvCommit msg) ;;
  answer (ans_commit orc) ;;
  cs <- get commits ;;
  modify (set_commits (msg :: cs)).

(** [repo.remote('origin')] *)
Definition remote_origin : M unit :=
  emit EvRemoteLookup ;; answer (ans_remote orc).

(** [origin.push()] *)
Definition push : M unit :=
  emit EvPush ;;
  answer (ans_push orc) ;;
  n <- get pushes ;;
  modify (set_pushes (S n)).

(** [subprocess.run(['osascript', ...], check=True)] *)
Definition osascript (title msg : string) : M unit :=
  emit (EvNotify title msg) ;; answer (ans_osascript orc).

(* ===================================================================== *)
(** * The script *)
(* ===================================================================== *)

(** [send_macos_notification(title, message, config)] *)
Definition send_macos_notification (title message : string) (cfg : config) : M unit :=
  if negb (macos_native cfg) then ret tt
  else
    try_except
      (osascript title message ;;
       log INFO "macOS notification sent")
      (fun e => log WARNING "Failed to send notification: {e}").

(** [check_disk_space(path, min_mb=100)].  The script divides the free
    bytes by [1024 * 1024] in floating point and compares with
    [min_mb]; a quotient by a power of two that is below [min_mb] is
    exact, so the comparison is the one on integers written here. *)
Definition check_disk_space (min_mb : Z) : M bool :=
  bytes <- statvfs_bytes ;;
  if bytes <? min_mb * (1024 * 1024)
  then log WARNING "Low disk space: {available_mb:.1f} MB available" ;; ret false
  else ret true.

(** [connect_ssh(config)]: every handler logs and raises again *)
Definition connect_ssh (cfg : config) : M unit :=
  try_except
    (log INFO "Connecting to {host}..." ;;
     ssh_connect (host cfg) ;;
     log INFO "SSH connection established")
    (fun e =>
       match e with
       | AuthenticationException =>
           log ERROR "SSH authentication failed" ;;
           log ERROR "  - Check SSH key: {ssh_key_path}" ;;
           log ERROR "  - Verify key is added to EdgeRouter authorized_keys" ;;
           raise e
       | SSHException =>
           log ERROR "SSH error: {e}" ;;
           raise e
       | _ =>
           log ERROR "Connection failed: {e}" ;;
           log ERROR "  - Check network connectivity" ;;
           log ERROR "  - Verify EdgeRouter is powered on" ;;
           log ERROR "  - Confirm IP address: {host}" ;;
           raise e
       end).

(** [download_config(ssh, config, test_mode)]: the dictionary
    [backup_files] as its items in insertion order, and [temp_dir].
    The retrieval of the [cfg] format is commented out in the source,
    so no branch for it exists. *)
Definition download_config (cfg : config) (test_mode : bool)
  : M (list (string * string) * string) :=
  try_except
    (temp_dir <- mkdtemp ;;
     backup_files <-
       (if listed "tar.gz" (formats cfg) then
          log INFO "Retrieving configuration archive..." ;;
          exec_command "gzip -zcf config.boot.tar.gz /config" ;;
          let local_tar := path_join temp_dir "config.boot.tar.gz" in
          sftp_get "/config/config.boot.tar.gz" local_tar ;;
          _ <- getsize local_tar ;;
          log INFO "  - tar.gz: {tar_size:,} bytes" ;;
          ret [("tar.gz", local_tar)]
        else ret []) ;;
     ret (backup_files, temp_dir))
    (fun e =>
       log ERROR "Failed to download configuration: {e}" ;;
       raise e).

(** the body of the loop of [validate_backup_files] *)
Definition validate_one (item : string * string) : M unit :=
  let '(fmt, filepath) := item in
  present <- path_exists filepath ;;
  (if negb present then raise (ValueError (fmt ++ " file not found")%string) else ret tt) ;;
  size <- getsize filepath ;;
  (if size =? 0 then raise (ValueError (fmt ++ " file is empty")%string) else ret tt) ;;
  (if String.eqb fmt "tar.gz" then tarfile_open filepath else ret tt) ;;
  (if String.eqb fmt "cfg" then
     content <- read_text filepath ;;
     if negb (PyStr.contains "set " content) && negb (PyStr.contains "delete " content)
     then raise (ValueError "cfg file doesn't appear to contain valid EdgeOS configuration")
     else ret tt
   else ret tt).

(** [validate_backup_files(backup_files)] *)
Definition validate_backup_files (backup_files : list (string * string)) : M bool :=
  try_except
    (for_each backup_files validate_one ;;
     log INFO "Files validated" ;;
     ret true)
    (fun e =>
       log ERROR "Validation failed: {e}" ;;
       ret false).

(** [save_to_repo(backup_files, config, test_mode)] *)
Definition save_to_repo (backup_files : list (string * string)) (cfg : config)
    (test_mode : bool) : M (list (list string)) :=
  let y := PyStr.str_int (Dates.year (now orc)) in
  let m := PyStr.pad2 (Dates.month (now orc)) in
  mkdir_date y m ;;
  let date_str := Dates.strftime_ymd (now orc) in
  saved_files <-
    for_fold backup_files
      (fun item saved =>
         let dest := ("backup-" ++ date_str ++ "." ++ fst item)%string in
         copy2 (snd item) y m dest ;;
         log INFO "Saved: {dest_file}" ;;
         ret (saved ++ [[y; m; dest]]))
      [] ;;
  log INFO "Saved to {year}/{month}/" ;;
  ret saved_files.

(** [check_for_changes(repo)]: an error of the check counts as a change *)
Definition check_for_changes : M bool :=
  try_except
    (d <- is_dirty ;;
     if d then ret true else ret false)
    (fun e =>
       log WARNING "Could not determine if files changed: {e}" ;;
       ret true).

Definition msg_changed (date_str : string) : string :=
  ("Backup " ++ date_str ++ " - Configuration changed")%string.
Definition msg_no_changes (date_str : string) : string :=
  ("Backup " ++ date_str ++ " - No changes")%string.

(** [git_commit_and_push(config, changed, test_mode)].  The result is
    [None] for the bare [return] of test mode.  One [try] spans the
    whole body; its first handler takes every [GitCommandError], from
    whichever call, and returns the local [changed] as it stands. *)
Definition git_commit_and_push (cfg : config) (changed : bool) (test_mode : bool)
  : M (option bool) :=
  modify (set_v_changed changed) ;;
  try_except
    (has_git <- get git_dir ;;
     (if negb has_git then
        log INFO "Initializing Git repository..." ;;
        repo_init ;;
        try_except (create_remote (remote cfg)) (fun _ => ret tt) ;;
        log INFO "Git repository initialized"
      else repo_open) ;;
     if test_mode then ret None
     else
       git_add ;;
       dirty <- check_for_changes ;;
       (if negb dirty then
          log INFO "No changes detected in files" ;;
          modify (set_v_changed false)
        else ret tt) ;;
       let date_str := Dates.strftime_ymd (now orc) in
       changed <- get v_changed ;;
       commit_msg <-
         (if changed then
            log INFO "Configuration changed since last backup" ;;
            ret (msg_changed date_str)
          else
            log INFO "Configuration unchanged" ;;
            ret (msg_no_changes date_str)) ;;
       index_commit commit_msg ;;
       log INFO "Git commit created" ;;
       (if auto_push cfg then
          log INFO "Pushing to GitHub..." ;;
          remote_origin ;;
          push ;;
          log INFO "Pushed to GitHub successfully"
        else ret tt) ;;
       ret (Some changed))
    (fun e =>
       if is_GitCommandError e then
         log WARNING "Git push failed: {e}" ;;
         log WARNING "  - Backup saved locally" ;;
         log WARNING "  - Check GitHub connectivity" ;;
         log WARNING "  - You can manually push later: git push" ;;
         changed <- get v_changed ;;
         ret (Some changed)
       else
         log ERROR "Git operation failed: {e}" ;;
         raise e).

(** [backup_file.stem.split('backup-')[1].rsplit('.', 1)[0]];
    [None] is the [IndexError] of the subscript *)
Definition embedded_date_str (name : string) : option string :=
  match PyStr.split "backup-" (PyStr.stem name) with
  | _ :: part :: _ => Some (PyStr.rsplit1_head "." part)
  | _ => None
  end.

(** the body of the innermost loop of [cleanup_old_backups], with its
    own [try] *)
Definition cleanup_file (cutoff_date : Dates.instant) (test_mode : bool)
    (y m : string) (backup_file : node) (removed_count : Z) : M Z :=
  try_except
    (date_str <- match embedded_date_str (node_name backup_file) with
                 | Some s => ret s
                 | None => raise IndexError
                 end ;;
     file_date <- match Dates.strptime date_str with
                  | Some d => ret d
                  | None => raise (ValueError "time data does not match format")
                  end ;;
     if Dates.instant_lt file_date cutoff_date then
       (if negb test_mode then
          unlink y m backup_file ;;
          log INFO "Removed old backup: {backup_file}"
        else
          log INFO "Would remove: {backup_file}") ;;
       ret (removed_count + 1)
     else ret removed_count)
    (fun e =>
       log WARNING "Could not process {backup_file}: {e}" ;;
       ret removed_count).

Definition cleanup_month (cutoff_date : Dates.instant) (test_mode : bool)
    (y : string) (month_dir : node) (removed_count : Z) : M Z :=
  if negb (is_dir month_dir) then ret removed_count
  else
    files <- glob [y; node_name month_dir] (children month_dir) "backup-*.{tar.gz,cfg}" ;;
    for_fold files (cleanup_file cutoff_date test_mode y (node_name month_dir)) removed_count.

Definition cleanup_year (cutoff_date : Dates.instant) (test_mode : bool)
    (year_dir : node) (removed_count : Z) : M Z :=
  if negb (is_dir year_dir) then ret removed_count
  else
    months <- glob [node_name year_dir] (children year_dir) "[0-9][0-9]" ;;
    for_fold months (cleanup_month cutoff_date test_mode (node_name year_dir)) removed_count.

(** the [try] block of [cleanup_old_backups] *)
Definition cleanup_scan (cutoff_date : Dates.instant) (test_mode : bool) : M Z :=
  t <- get tree ;;
  years <- glob [] t "[0-9][0-9][0-9][0-9]" ;;
  removed_count <- for_fold years (cleanup_year cutoff_date test_mode) 0 ;;
  (if 0 <? removed_count
   then log INFO "Retention policy applied (removed {removed_count} old files)"
   else ret tt) ;;
  ret removed_count.

(** [datetime.now() - timedelta(days=retention_days)] *)
Definition cutoff (cfg : config) : option Dates.instant :=
  Dates.minus_days (Dates.instant_of (now orc)) (retention_days cfg).

(** [cleanup_old_backups(config, test_mode)].  The cutoff is computed
    before the [try] begins. *)
Definition cleanup_old_backups (cfg : config) (test_mode : bool) : M Z :=
  cutoff_date <- match cutoff cfg with
                 | Some c => ret c
                 | None => raise OverflowError
                 end ;;
  try_except
    (cleanup_scan cutoff_date test_mode)
    (fun e =>
       log WARNING "Cleanup failed: {e}" ;;
       ret 0).

Definition truthy (v : option bool) : bool :=
  match v with Some b => b | None => false end.

(** [run_backup(config, test_mode)] *)
Definition run_backup (cfg : config) (test_mode : bool) : M bool :=
  modify (set_v_ssh false) ;;
  modify (set_v_temp_dir None) ;;
  let changed := true in
  try_finally
    (try_except
       (mkdir_root ;;
        enough <- check_disk_space 100 ;;
        (if negb enough
         then raise (Exception_ "Insufficient disk space (<100MB available)")
         else ret tt) ;;
        log INFO "Starting backup for {host}" ;;
        connect_ssh cfg ;;
        modify (set_v_ssh true) ;;
        downloaded <- download_config cfg test_mode ;;
        let backup_files := fst downloaded in
        modify (set_v_temp_dir (Some (snd downloaded))) ;;
        valid <- validate_backup_files backup_files ;;
        (if negb valid then raise (Exception_ "Backup validation failed") else ret tt) ;;
        if test_mode then
          log INFO "Test completed successfully - ready for backup" ;;
          log INFO "(No files were saved or committed)" ;;
          ret true
        else
          _ <- save_to_repo backup_files cfg test_mode ;;
          changed <- git_commit_and_push cfg changed test_mode ;;
          _ <- cleanup_old_backups cfg test_mode ;;
          log INFO "Backup completed successfully in {duration:.1f} seconds" ;;
          (if on_success cfg then
             let msg :=
               if on_changes cfg && truthy changed
               then "EdgeRouter backup completed - Configuration changed"
               else "EdgeRouter backup completed - No changes" in
             send_macos_notification "Backup Successful" msg cfg
           else ret tt) ;;
          ret true)
       (fun e =>
          log ERROR "Backup failed: {e}" ;;
          (if on_failure cfg
           then send_macos_notification "Backup Failed" (exn_text e) cfg
           else ret tt) ;;
          ret false))
    (ssh <- get v_ssh ;;
     (if ssh then ssh_close else ret tt) ;;
     temp_dir <- get v_temp_dir ;;
     match temp_dir with
     | Some d =>
         on_disk <- get temp_exists ;;
         if on_disk then rmtree d else ret tt
     | None => ret tt
     end).

(** [main] for the commands [run] and [test]:
    [sys.exit(0 if success else 1)]; an exception that escapes ends
    the process with status 1 as well. *)
Definition exit_code (r : result bool) : Z :=
  match r with
  | Ret true => 0
  | _ => 1
  end.

Definition main_run (cfg : config) (test_mode : bool) (w : world) : Z * world :=
  let (r, w') := run_backup cfg test_mode w in (exit_code r, w').

End Program.

(** the backup files of a listing, as the retention pass enumerates them *)
Definition backup_glob (entries : list node) : list node :=
  filter (fun n => Glob.fnmatch "backup-*.{tar.gz,cfg}" (node_name n)) entries.

(* ===================================================================== *)
(** * Vocabulary of the properties *)
(* ===================================================================== *)

(** every run of [m] leaves the world related to the one it started in *)
Definition keeps (R : world -> world -> Prop) {A : Type} (m : M A) : Prop :=
  forall w, R w (snd (m w)).

(** [m] never raises *)
Definition returns {A : Type} (m : M A) : Prop :=
  forall w, exists a w', m w = (Ret a, w').

(** [Q] holds of what [m] returns or raises when run from [w], and of
    the world it leaves *)
Definition wp {A : Type} (m : M A) (Q : result A -> world -> Prop) (w : world) : Prop :=
  Q (fst (m w)) (snd (m w)).

(** the trace grew by events that all satisfy [P] *)
Definition adds_only (P : event -> Prop) (w w' : world) : Prop :=
  exists evs, trace w' = evs ++ trace w /\ Forall P evs.

Definition retention_event (e : event) : Prop :=
  match e with
  | EvGlob _ _ | EvUnlink _ | EvLog _ _ => True
  | _ => False
  end.

(** What the retention pass may change: the tree and the trace. *)
Definition retention_frame (w w' : world) : Prop :=
  root_exists w' = root_exists w /\ git_dir w' = git_dir w /\
  commits w' = commits w /\ pushes w' = pushes w /\
  temp_exists w' = temp_exists w /\ temp_files w' = temp_files w /\
  ssh_open w' = ssh_open w /\ v_ssh w' = v_ssh w /\
  v_temp_dir w' = v_temp_dir w /\ v_changed w' = v_changed w /\
  adds_only retention_event w w'.

(** The steps that persist a backup: storing, committing, pushing and
    pruning. *)
Definition persistence_step (e : event) : bool :=
  match e with
  | EvMkdirDate _ _ | EvCopy _ _ | EvGitInit | EvCreateRemote _ | EvGitOpen | EvGitAdd
  | EvIsDirty | EvCommit _ | EvRemoteLookup | EvPush | EvGlob _ _ | EvUnlink _ => true
  | _ => false
  end.

(** What the change check of [git_commit_and_push] comes to: the tree
    differs, or [is_dirty] itself failed and the check fell back to
    "changed". *)
Definition change_reported (orc : env) : bool :=
  tree_differs orc || match ans_is_dirty orc with Some _ => true | None => false end.

(** [statvfs] answers, with at least the 100 MB that [run_backup] asks for *)
Definition enough_space (orc : env) : Prop :=
  exists bavail frsize,
    ans_statvfs orc = inr (bavail, frsize) /\ 100 * (1024 * 1024) <= bavail * frsize.

(** when the archive is configured, the router builds it and the
    transfer stores a non-empty file that opens as a gzipped tar *)
Definition archive_retrieved (orc : env) (cfg : config) : Prop :=
  listed "tar.gz" (formats cfg) = true ->
  ans_exec orc = None /\
  exists d, ans_sftp_get orc = inr d /\ fd_size d <> 0 /\ fd_targz d = true.

(** the directory of the day can be made and written to *)
Definition dated_dir_available (orc : env) (w : world) : Prop :=
  ans_mkdir_date orc = None /\ ans_copy orc = None /\
  exists t,
    tree_mkdirs (PyStr.str_int (Dates.year (now orc))) (PyStr.pad2 (Dates.month (now orc)))
      (tree w) = Some t.

(** Preflight, connection, retrieval and validation go through. *)
Definition steps_through_validation_succeed (orc : env) (cfg : config) : Prop :=
  ans_mkdir_root orc = None /\ enough_space orc /\
  ans_connect orc = None /\ ans_mkdtemp orc = None /\
  archive_retrieved orc cfg.


(** The repository opens or initialises, staging and the commit go
    through, and so does the push when one is configured. *)
Definition version_control_succeeds (orc : env) (cfg : config) (w : world) : Prop :=
  (if git_dir w then ans_git_open orc else ans_git_init orc) = None /\
  ans_git_add orc = None /\ ans_commit orc = None /\
  (auto_push cfg = true -> ans_remote orc = None /\ ans_push orc = None).

(** the steps that bring an artifact in or put one into the repository *)
Definition handles_artifact (e : event) : bool :=
  match e with
  | EvExec _ | EvSftpGet _ _ | EvCopy _ _ => true
  | _ => false
  end.


(* ===================================================================== *)
(** * Concrete runs *)
(* ===================================================================== *)

(** the same outside world with one answer changed *)
Definition with_ans_statvfs (a : exn + (Z * Z)) (o : env) : env :=
  {| now := now o; tmp_name := tmp_name o; ans_mkdir_root := ans_mkdir_root o;
     ans_statvfs := a; ans_connect := ans_connect o; ans_mkdtemp := ans_mkdtemp o;
     ans_exec := ans_exec o; ans_sftp_get := ans_sftp_get o;
     ans_mkdir_date := ans_mkdir_date o; ans_copy := ans_copy o;
     ans_git_init := ans_git_init o; ans_create_remote := ans_create_remote o;
     ans_git_open := ans_git_open o; ans_git_add := ans_git_add o;
     tree_differs := tree_differs o; ans_is_dirty := ans_is_dirty o;
     ans_commit := ans_commit o; ans_remote := ans_remote o; ans_push := ans_push o;
     ans_scan := ans_scan o; ans_unlink := ans_unlink o;
     ans_osascript := ans_osascript o |}.
Definition with_ans_sftp_get (a : exn + file_data) (o : env) : env :=
  {| now := now o; tmp_name := tmp_name o; ans_mkdir_root := ans_mkdir_root o;
     ans_statvfs := ans_statvfs o; ans_connect := ans_connect o;
     ans_mkdtemp := ans_mkdtemp o; ans_exec := ans_exec o; ans_sftp_get := a;
     ans_mkdir_date := ans_mkdir_date o; ans_copy := ans_copy o;
     ans_git_init := ans_git_init o; ans_create_remote := ans_create_remote o;
     ans_git_open := ans_git_open o; ans_git_add := ans_git_add o;
     tree_differs := tree_differs o; ans_is_dirty := ans_is_dirty o;
     ans_commit := ans_commit o; ans_remote := ans_remote o; ans_push := ans_push o;
     ans_scan := ans_scan o; ans_unlink := ans_unlink o;
     ans_osascript := ans_osascript o |}.
Definition with_ans_git_add (a : option exn) (o : env) : env :=
  {| now := now o; tmp_name := tmp_name o; ans_mkdir_root := ans_mkdir_root o;
     ans_statvfs := ans_statvfs o; ans_connect := ans_connect o;
     ans_mkdtemp := ans_mkdtemp o; ans_exec := ans_exec o;
     ans_sftp_get := ans_sftp_get o; ans_mkdir_date := ans_mkdir_date o;
     ans_copy := ans_copy o; ans_git_init := ans_git_init o;
     ans_create_remote := ans_create_remote o; ans_git_open := ans_git_open o;
     ans_git_add := a; tree_differs := tree_differs o; ans_is_dirty := ans_is_dirty o;
     ans_commit := ans_commit o; ans_remote := ans_remote o; ans_push := ans_push o;
     ans_scan := ans_scan o; ans_unlink := ans_unlink o;
     ans_osascript := ans_osascript o |}.
Definition with_tree_differs (a : bool) (o : env) : env :=
  {| now := now o; tmp_name := tmp_name o; ans_mkdir_root := ans_mkdir_root o;
     ans_statvfs := ans_statvfs o; ans_connect := ans_connect o;
     ans_mkdtemp := ans_mkdtemp o; ans_exec := ans_exec o;
     ans_sftp_get := ans_sftp_get o; ans_mkdir_date := ans_mkdir_date o;
     ans_copy := ans_copy o; ans_git_init := ans_git_init o;
     ans_create_remote := ans_create_remote o; ans_git_open := ans_git_open o;
     ans_git_add := ans_git_add o; tree_differs := a; ans_is_dirty := ans_is_dirty o;
     ans_commit := ans_commit o; ans_remote := ans_remote o; ans_push := ans_push o;
     ans_scan := ans_scan o; ans_unlink := ans_unlink o;
     ans_osascript := ans_osascript o |}.
Definition with_ans_is_dirty (a : option exn) (o : env) : env :=
  {| now := now o; tmp_name := tmp_name o; ans_mkdir_root := ans_mkdir_root o;
     ans_statvfs := ans_statvfs o; ans_connect := ans_connect o;
     ans_mkdtemp := ans_mkdtemp o; ans_exec := ans_exec o;
     ans_sftp_get := ans_sftp_get o; ans_mkdir_date := ans_mkdir_date o;
     ans_copy := ans_copy o; ans_git_init := ans_git_init o;
     ans_create_remote := ans_create_remote o; ans_git_open := ans_git_open o;
     ans_git_add := ans_git_add o; tree_differs := tree_differs o; ans_is_dirty := a;
     ans_commit := ans_commit o; ans_remote := ans_remote o; ans_push := ans_push o;
     ans_scan := ans_scan o; ans_unlink := ans_unlink o;
     ans_osascript := ans_osascript o |}.
Definition with_ans_unlink (a : list string -> option exn) (o : env) : env :=
  {| now := now o; tmp_name := tmp_name o; ans_mkdir_root := ans_mkdir_root o;
     ans_statvfs := ans_statvfs o; ans_connect := ans_connect o;
     ans_mkdtemp := ans_mkdtemp o; ans_exec := ans_exec o;
     ans_sftp_get := ans_sftp_get o; ans_mkdir_date := ans_mkdir_date o;
     ans_copy := ans_copy o; ans_git_init := ans_git_init o;
     ans_create_remote := ans_create_remote o; ans_git_open := ans_git_open o;
     ans_git_add := ans_git_add o; tree_differs := tree_differs o;
     ans_is_dirty := ans_is_dirty o; ans_commit := ans_commit o;
     ans_remote := ans_remote o; ans_push := ans_push o; ans_scan := ans_scan o;
     ans_unlink := a; ans_osascript := ans_osascript o |}.
Definition with_ans_connect (a : option exn) (o : env) : env :=
  {| now := now o; tmp_name := tmp_name o; ans_mkdir_root := ans_mkdir_root o;
     ans_statvfs := ans_statvfs o; ans_connect := a; ans_mkdtemp := ans_mkdtemp o;
     ans_exec := ans_exec o; ans_sftp_get := ans_sftp_get o;
     ans_mkdir_date := ans_mkdir_date o; ans_copy := ans_copy o;
     ans_git_init := ans_git_init o; ans_create_remote := ans_create_remote o;
     ans_git_open := ans_git_open o; ans_git_add := ans_git_add o;
     tree_differs := tree_differs o; ans_is_dirty := ans_is_dirty o;
     ans_commit := ans_commit o; ans_remote := ans_remote o; ans_push := ans_push o;
     ans_scan := ans_scan o; ans_unlink := ans_unlink o;
     ans_osascript := ans_osascript o |}.


Definition with_formats (l : list string) (c : config) : config :=
  {| host := host c; repo_path := repo_path c; remote := remote c; auto_push := auto_push c;
     formats := l; retention_days := retention_days c; on_success := on_success c;
     on_changes := on_changes c; on_failure := on_failure c; macos_native := macos_native c |}.

(** 2026-11-04, noon *)
Definition ex_now : Dates.datetime :=
  {| Dates.year := 2026; Dates.month := 11; Dates.day := 4; Dates.usec := 43200000000 |}.

Definition ex_archive : file_data :=
  {| fd_size := 2048; fd_targz := true; fd_text := EmptyString |}.

(** an outside world in which every call goes through *)
Definition ex_env : env :=
  {| now := ex_now; tmp_name := "/tmp/tmpk3v9";
     ans_mkdir_root := None; ans_statvfs := inr (2500000, 4096); ans_connect := None;
     ans_mkdtemp := None; ans_exec := None; ans_sftp_get := inr ex_archive;
     ans_mkdir_date := None; ans_copy := None; ans_git_init := None;
     ans_create_remote := None; ans_git_open := None; ans_git_add := None;
     tree_differs := true; ans_is_dirty := None; ans_commit := None; ans_remote := None;
     ans_push := None; ans_scan := fun _ => None; ans_unlink := fun _ => None;
     ans_osascript := None |}.

Definition ex_cfg : config :=
  {| host := "192.168.1.1"; repo_path := "~/edgerouter-backups";
     remote := "git@github.com:user/edgerouter-config.git"; auto_push := true;
     formats := ["tar.gz"; "cfg"]; retention_days := 30;
     on_success := true; on_changes := true; on_failure := true; macos_native := true |}.

(** With [ex_now] and 30 days of retention the cutoff is 2026-10-05,
    noon: the three backups are dated the day before the cutoff, the
    day of the cutoff and the day after. *)
Definition ex_tree : list node :=
  [Dir "2026" [Dir "10" [File "backup-2026-10-04.tar.gz";
                         File "backup-2026-10-05.tar.gz";
                         File "backup-2026-10-06.tar.gz"]]].

(** the same three days, under names that the pattern of the retention
    pass does match *)
Definition ex_tree_braces : list node :=
  [Dir "2026" [Dir "10" [File "backup-2026-10-04.{tar.gz,cfg}";
                         File "backup-2026-10-05.{tar.gz,cfg}";
                         File "backup-2026-10-06.{tar.gz,cfg}"]]].

Definition world_of (root : bool) (t : list node) : world :=
  mkWorld root t root (if root then ["Backup 2026-11-03 - No changes"] else []) 0
          false [] false false None false [].

Definition ex_world : world := world_of true ex_tree.

(** a machine on which the repository does not exist yet *)
Definition ex_fresh : world := world_of false [].


(** the working tree is what was committed last, and the change check
    itself fails *)
Definition ex_env_check_fails : env :=
  with_ans_is_dirty (Some GitCommandError) (with_tree_differs false ex_env).

(** [git add] fails, as it does when another process holds
    [.git/index.lock] *)
Definition ex_env_add_fails : env := with_ans_git_add (Some GitCommandError) ex_env.

(** the transfer of the archive fails *)
Definition ex_env_transfer_fails : env := with_ans_sftp_get (inl OSError) ex_env.


(** only the plain-text format is configured *)
Definition ex_cfg_text_only : config := with_formats ["cfg"] ex_cfg.


(* ===================================================================== *)
(** * Vocabulary of the properties of the single functions *)
(* ===================================================================== *)

Definition same_tree (w w' : world) : Prop := tree w' = tree w.

(** No entry at the depth of the backup files has a name that ends in
    a closing brace: so it is with every [backup-<date>.tar.gz] and
    [backup-<date>.cfg]. *)
Definition dated_names_only (t : list node) : Prop :=
  forall y m f, In y t -> In m (children y) -> In f (children m) ->
    PyStr.last_char (node_name f) <> Some "}"%char.

(** no step of the retention pass in dry-run mode removes a file *)
Definition dry_retention (w w' : world) : Prop :=
  tree w' = tree w /\
  adds_only (fun e => match e with EvUnlink _ => False | _ => True end) w w'.

(** the date a backup's name carries, as the retention pass reads it *)
Definition embedded_date (name : string) : option Dates.instant :=
  match embedded_date_str name with
  | Some s => Dates.strptime s
  | None => None
  end.

(** the paths the retention pass may remove: [<year>/<month>/<file>]
    with each part matched by the pattern of its loop, and a date in
    the file's name that lies before the cutoff *)
Definition retention_target (orc : env) (cfg : config) (path : list string) : bool :=
  match path, cutoff orc cfg with
  | [y; m; f], Some c =>
      Glob.fnmatch "[0-9][0-9][0-9][0-9]" y && Glob.fnmatch "[0-9][0-9]" m &&
      Glob.fnmatch "backup-*.{tar.gz,cfg}" f &&
      match embedded_date f with
      | Some d => Dates.instant_lt d c
      | None => false
      end
  | _, _ => false
  end.

Definition unlinks_within (orc : env) (cfg : config) (e : event) : Prop :=
  match e with
  | EvUnlink path => retention_target orc cfg path = true
  | _ => True
  end.

(** [n] characters, all of them digits *)
Definition all_digits (n : nat) (s : string) : bool :=
  (String.length s =? n)%nat && forallb PyStr.is_digit (list_ascii_of_string s).


(** the events of a notification *)
Definition notification_event (e : event) : Prop :=
  match e with
  | EvNotify _ _ | EvLog _ _ => True
  | _ => False
  end.

(** [run_backup]'s local [ssh] says whether a session is open *)
Definition session_tracked (w w' : world) : Prop :=
  v_ssh w = ssh_open w -> v_ssh w' = ssh_open w'.

(** what a run does only once it is connected: the workspace, the
    retrieval, and every step that persists *)
Definition past_connection (e : event) : bool :=
  match e with
  | EvMkdtemp | EvExec _ | EvSftpGet _ _ | EvRmtree _ => true
  | _ => persistence_step e
  end.


(** the steps that reach for the Git remote *)
Definition reaches_remote (e : event) : bool :=
  match e with
  | EvRemoteLookup | EvPush => true
  | _ => false
  end.

(** the tree, the commits and the pushes are what they were, and no
    step taken is one of [bad] *)
Definition avoiding (bad : event -> bool) (w w' : world) : Prop :=
  tree w' = tree w /\ commits w' = commits w /\ pushes w' = pushes w /\
  adds_only (fun e => bad e = false) w w'.

Definition no_push (w w' : world) : Prop :=
  pushes w' = pushes w /\ adds_only (fun e => reaches_remote e = false) w w'.

(** the text of a year of the calendar: four digits that spell it *)
Definition spells_year (y : Z) (s : string) : bool :=
  match s with
  | String a (String b (String c (String d EmptyString))) =>
      PyStr.is_digit a && PyStr.is_digit b && PyStr.is_digit c && PyStr.is_digit d &&
      (1000 * PyStr.digit_val a + 100 * PyStr.digit_val b
       + 10 * PyStr.digit_val c + PyStr.digit_val d =? y)
  | _ => false
  end.

(** no character of [s] is [c] *)
Fixpoint lacks (c : ascii) (s : string) : bool :=
  match s with
  | EmptyString => true
  | String a r => negb (Ascii.eqb a c) && lacks c r
  end.

(** two characters, neither a dot nor a [b] *)
Definition plain_pair (s : string) : bool :=
  (String.length s =? 2)%nat && lacks "." s && lacks "b" s.

(** the listing of the directory [name] of a listing, as a path lookup
    finds it: the first entry of that name, if it is a directory *)
Fixpoint find_dir (name : string) (l : list node) : option (list node) :=
  match l with
  | [] => None
  | File s :: r => if String.eqb s name then None else find_dir name r
  | Dir s c :: r => if String.eqb s name then Some c else find_dir name r
  end.

Definition has_name (f : string) (l : list node) : bool :=
  existsb (fun n => String.eqb (node_name n) f) l.

(** [<root>/y/m/f] exists *)
Definition has_entry (path : list string) (t : list node) : bool :=
  match path with
  | [y; m; f] =>
      match find_dir y t with
      | Some c =>
          match find_dir m c with
          | Some c' => has_name f c'
          | None => false
          end
      | None => false
      end
  | _ => false
  end.

(** every name of the first listing is in the second *)
Definition names_kept (c c2 : list node) : Prop :=
  forall f, has_name f c = true -> has_name f c2 = true.

(** every directory of the first listing is one of the second, and
    related by [E] to what it has become *)
Definition dirs_kept (E : list node -> list node -> Prop) (c c2 : list node) : Prop :=
  forall n d, find_dir n c = Some d -> exists d2, find_dir n c2 = Some d2 /\ E d d2.

(** no dated entry of the first tree is missing from the second *)
Definition entries_kept (w w' : world) : Prop :=
  dirs_kept (dirs_kept names_kept) (tree w) (tree w').

(** the path of the repository that [save_to_repo] gives an item *)
Definition dest_path (orc : env) (item : string * string) : list string :=
  [PyStr.str_int (Dates.year (now orc)); PyStr.pad2 (Dates.month (now orc));
   ("backup-" ++ Dates.strftime_ymd (now orc) ++ "." ++ fst item)%string].

(** the body of the loop of [save_to_repo] *)
Definition save_one (orc : env) (item : string * string) (saved : list (list string))
  : M (list (list string)) :=
  let y := PyStr.str_int (Dates.year (now orc)) in
  let m := PyStr.pad2 (Dates.month (now orc)) in
  let dest := ("backup-" ++ Dates.strftime_ymd (now orc) ++ "." ++ fst item)%string in
  copy2 orc (snd item) y m dest ;;
  log INFO "Saved: {dest_file}" ;;
  ret (saved ++ [[y; m; dest]]).

Definition with_auto_push (b : bool) (c : config) : config :=
  {| host := host c; repo_path := repo_path c; remote := remote c; auto_push := b;
     formats := formats c; retention_days := retention_days c; on_success := on_success c;
     on_changes := on_changes c; on_failure := on_failure c; macos_native := macos_native c |}.

(** a configuration that keeps the backups local *)
Definition ex_cfg_local : config := with_auto_push false ex_cfg.

(** the transfer stores an empty file *)
Definition ex_empty_archive : file_data :=
  {| fd_size := 0; fd_targz := false; fd_text := EmptyString |}.

Definition ex_env_empty_archive : env :=
  with_ans_sftp_get (inr ex_empty_archive) ex_env.

(** every file the batch names is in the workspace *)
Definition batch_on_disk (batch : list (string * string)) (w : world) : bool :=
  forallb (fun item => match lookup (snd item) (temp_files w) with
                       | Some _ => true
                       | None => false
                       end) batch.



(* ===================================================================== *)
(** * The pure helpers on concrete inputs *)
(* ===================================================================== *)

Example glob_year : Glob.fnmatch "[0-9][0-9][0-9][0-9]" "2026" = true.
Proof. reflexivity. Qed.
Example glob_year_short : Glob.fnmatch "[0-9][0-9][0-9][0-9]" "202" = false.
Proof. reflexivity. Qed.
Example glob_backup_tokens :
  Glob.tokens "backup-*.{tar.gz,cfg}" =
  map Glob.Lit (list_ascii_of_string "backup-") ++ [Glob.Star] ++
  map Glob.Lit (list_ascii_of_string ".{tar.gz,cfg}").
Proof. reflexivity. Qed.
Example glob_backup_targz :
  Glob.fnmatch "backup-*.{tar.gz,cfg}" "backup-2026-01-20.tar.gz" = false.
Proof. reflexivity. Qed.
Example glob_backup_cfg :
  Glob.fnmatch "backup-*.{tar.gz,cfg}" "backup-2026-01-20.cfg" = false.
Proof. reflexivity. Qed.
Example glob_backup_braces :
  Glob.fnmatch "backup-*.{tar.gz,cfg}" "backup-2026-01-20.{tar.gz,cfg}" = true.
Proof. reflexivity. Qed.
Example stem_targz : PyStr.stem "backup-2026-01-20.tar.gz" = "backup-2026-01-20.tar".
Proof. reflexivity. Qed.
Example split_backup :
  PyStr.split "backup-" "backup-2026-01-20.tar" = [EmptyString; "2026-01-20.tar"].
Proof. reflexivity. Qed.
Example strptime_ok :
  Dates.strptime "2026-01-20" = Some (Dates.midnight 2026 1 20).
Proof. reflexivity. Qed.
Example strptime_short_fields :
  Dates.strptime "2026-1-5" = Some (Dates.midnight 2026 1 5).
Proof. reflexivity. Qed.
Example strptime_trailing : Dates.strptime "2026-01-20.tar" = None.
Proof. reflexivity. Qed.
Example strptime_feb30 : Dates.strptime "2026-02-30" = None.
Proof. reflexivity. Qed.
Example toordinal_epoch : Dates.toordinal 1 1 1 = 1.
Proof. reflexivity. Qed.
Example toordinal_max : Dates.toordinal 9999 12 31 = Dates.MAXORDINAL.
Proof. reflexivity. Qed.
Example toordinal_2026 : Dates.toordinal 2026 11 4 = 739924.
Proof. reflexivity. Qed.
Example strftime_2026 :
  Dates.strftime_ymd {| Dates.year := 2026; Dates.month := 1; Dates.day := 5; Dates.usec := 0 |}
  = "2026-01-05".
Proof. reflexivity. Qed.

(* ===================================================================== *)
(** * Facts about patterns and names *)
(* ===================================================================== *)

Lemma last_char_cons (d : ascii) (r : string) (c : ascii) :
  PyStr.last_char r = Some c -> PyStr.last_char (String d r) = Some c.
Proof.
  destruct r as [|a r']; simpl; [discriminate | auto].
Qed.

(** A pattern that ends in a literal character only matches names that
    end in that character. *)
Lemma matches_last_literal (p : list Glob.tok) :
  forall (s : string) (c : ascii),
    Glob.last_tok p = Some (Glob.Lit c) ->
    Glob.matches p s = true ->
    PyStr.last_char s = Some c.
Proof.
  induction p as [|t p IH]; intros s c Hlast Hm.
  - discriminate.
  - destruct p as [|t' p'].
    + (* the last token *)
      simpl in Hlast. injection Hlast as ->.
      simpl in Hm. destruct s as [|d r]; [discriminate|].
      apply andb_true_iff in Hm as [Hd Hr].
      destruct r; [|discriminate].
      apply Ascii.eqb_eq in Hd. subst. reflexivity.
    + assert (Hlast' : Glob.last_tok (t' :: p') = Some (Glob.Lit c)) by exact Hlast.
      destruct t as [a| | |neg items].
      * simpl in Hm. destruct s as [|d r]; [discriminate|].
        apply andb_true_iff in Hm as [_ Hr].
        apply last_char_cons. eapply IH; eauto.
      * (* a star: by induction on the name *)
        revert Hm. induction s as [|d r IHs]; intro Hm.
        -- simpl in Hm. rewrite orb_false_r in Hm. eapply IH; eauto.
        -- simpl in Hm. apply orb_true_iff in Hm as [Hm | Hm].
           ++ eapply IH; eauto.
           ++ apply last_char_cons. apply IHs. exact Hm.
      * simpl in Hm. destruct s as [|d r]; [discriminate|].
        apply last_char_cons. eapply IH; eauto.
      * simpl in Hm. destruct s as [|d r]; [discriminate|].
        apply andb_true_iff in Hm as [_ Hr].
        apply last_char_cons. eapply IH; eauto.
Qed.

(** The pattern of the retention pass ends in a literal closing brace. *)
Lemma backup_pattern_needs_brace (name : string) :
  Glob.fnmatch "backup-*.{tar.gz,cfg}" name = true ->
  PyStr.last_char name = Some "}"%char.
Proof.
  apply matches_last_literal. reflexivity.
Qed.

Lemma backup_glob_nothing (entries : list node) :
  (forall n, In n entries -> PyStr.last_char (node_name n) <> Some "}"%char) ->
  backup_glob entries = [].
Proof.
  intro H. unfold backup_glob.
  induction entries as [|n r IH]; [reflexivity|].
  simpl. destruct (Glob.fnmatch _ (node_name n)) eqn:E.
  - exfalso. apply (H n (or_introl eq_refl)). apply backup_pattern_needs_brace. exact E.
  - apply IH. intros n' Hn'. apply H. right. exact Hn'.
Qed.

(* ===================================================================== *)
(** * Facts about the repository tree *)
(* ===================================================================== *)



(* ===================================================================== *)
(** * Rules for runs *)
(* ===================================================================== *)

Section Keeps.

Context (R : world -> world -> Prop) {HR : PreOrder R}.

Lemma keeps_ret {A} (a : A) : keeps R (ret a).
Proof. intro w. simpl. reflexivity. Qed.

Lemma keeps_raise {A} (e : exn) : keeps R (@raise A e).
Proof. intro w. simpl. reflexivity. Qed.

Lemma keeps_get {A} (f : world -> A) : keeps R (get f).
Proof. intro w. simpl. reflexivity. Qed.

Lemma keeps_answer (a : option exn) : keeps R (answer a).
Proof. destruct a; [apply keeps_raise | apply keeps_ret]. Qed.

Lemma keeps_bind {A B} (m : M A) (k : A -> M B) :
  keeps R m -> (forall a, keeps R (k a)) -> keeps R (bind m k).
Proof.
  intros Hm Hk w. unfold bind.
  specialize (Hm w). destruct (m w) as [[a|e] w1]; simpl in *.
  - etransitivity; [exact Hm | apply Hk].
  - exact Hm.
Qed.

Lemma keeps_try_except {A} (m : M A) (h : exn -> M A) :
  keeps R m -> (forall e, keeps R (h e)) -> keeps R (try_except m h).
Proof.
  intros Hm Hh w. unfold try_except.
  specialize (Hm w). destruct (m w) as [[a|e] w1]; simpl in *.
  - exact Hm.
  - etransitivity; [exact Hm | apply Hh].
Qed.

Lemma keeps_try_finally {A} (m : M A) (f : M unit) :
  keeps R m -> keeps R f -> keeps R (try_finally m f).
Proof.
  intros Hm Hf w. unfold try_finally.
  specialize (Hm w). destruct (m w) as [r w1]; simpl in *.
  specialize (Hf w1). destruct (f w1) as [[u|e] w2]; simpl in *;
    etransitivity; eauto.
Qed.

Lemma keeps_for_fold {X S} (l : list X) (body : X -> S -> M S) :
  (forall x s, keeps R (body x s)) -> forall s, keeps R (for_fold l body s).
Proof.
  intro Hb. induction l as [|x r IH]; intro s; simpl.
  - apply keeps_ret.
  - apply keeps_bind; [apply Hb | intro s'; apply IH].
Qed.

End Keeps.

Lemma returns_ret {A} (a : A) : returns (ret a).
Proof. intro w. exists a, w. reflexivity. Qed.

Lemma returns_modify (f : world -> world) : returns (modify f).
Proof. intro w. exists tt, (f w). reflexivity. Qed.

Lemma returns_bind {A B} (m : M A) (k : A -> M B) :
  returns m -> (forall a, returns (k a)) -> returns (bind m k).
Proof.
  intros Hm Hk w. unfold bind.
  destruct (Hm w) as (a & w1 & E). rewrite E. apply Hk.
Qed.

(** A [try] whose handler never raises never raises, whatever the body
    does. *)
Lemma returns_try_except {A} (m : M A) (h : exn -> M A) :
  (forall e, returns (h e)) -> returns (try_except m h).
Proof.
  intros Hh w. unfold try_except.
  destruct (m w) as [[a|e] w1].
  - exists a, w1. reflexivity.
  - apply Hh.
Qed.

Lemma returns_for_fold {X S} (l : list X) (body : X -> S -> M S) :
  (forall x s, returns (body x s)) -> forall s, returns (for_fold l body s).
Proof.
  intro Hb. induction l as [|x r IH]; intro s; simpl.
  - apply returns_ret.
  - apply returns_bind; [apply Hb | intro s'; apply IH].
Qed.

Lemma returns_log (l : level) (msg : string) : returns (log l msg).
Proof. apply returns_modify. Qed.

(* ===================================================================== *)
(** * The retention pass *)
(* ===================================================================== *)

#[local] Instance adds_only_preorder (P : event -> Prop) : PreOrder (adds_only P).
Proof.
  split.
  - intro w. exists []. split; [reflexivity | constructor].
  - intros a b c (e1 & H1 & F1) (e2 & H2 & F2).
    exists (e2 ++ e1). split.
    + rewrite H2, H1. apply app_assoc.
    + apply Forall_app. split; assumption.
Qed.

#[local] Instance retention_frame_preorder : PreOrder retention_frame.
Proof.
  split.
  - intro w. unfold retention_frame. repeat split; reflexivity.
  - intros a b c Hab Hbc. unfold retention_frame in *.
    destruct Hab as (A1 & A2 & A3 & A4 & A5 & A6 & A7 & A8 & A9 & A10 & A11).
    destruct Hbc as (B1 & B2 & B3 & B4 & B5 & B6 & B7 & B8 & B9 & B10 & B11).
    repeat split; try congruence.
    etransitivity; eassumption.
Qed.

Lemma retention_frame_emit (e : event) :
  retention_event e -> keeps retention_frame (emit e).
Proof.
  intros He w. unfold retention_frame. simpl. repeat split.
  exists [e]. split; [reflexivity | repeat constructor; exact He].
Qed.

Lemma retention_frame_set_tree (t : list node) :
  keeps retention_frame (modify (set_tree t)).
Proof.
  intro w. unfold retention_frame. simpl. repeat split.
  exists []. split; [reflexivity | constructor].
Qed.

Ltac keeps_rule lem := apply lem; try typeclasses eauto.

Ltac keeps_step :=
  lazymatch goal with
  | |- keeps _ (bind _ _) => keeps_rule @keeps_bind; [ | intro ]
  | |- keeps _ (ret _) => keeps_rule @keeps_ret
  | |- keeps _ (raise _) => keeps_rule @keeps_raise
  | |- keeps _ (get _) => keeps_rule @keeps_get
  | |- keeps _ (answer _) => keeps_rule @keeps_answer
  | |- keeps _ (try_except _ _) => keeps_rule @keeps_try_except; [ | intro ]
  | |- keeps _ (try_finally _ _) => keeps_rule @keeps_try_finally
  | |- keeps _ (for_fold _ _ _) => keeps_rule @keeps_for_fold; intros
  | |- keeps _ (if ?b then _ else _) => destruct b
  | |- keeps _ (match ?x with _ => _ end) => destruct x
  end.

Section Retention.

Variable orc : env.

Lemma log_keeps_retention (l : level) (msg : string) :
  keeps retention_frame (log l msg).
Proof. apply retention_frame_emit. exact I. Qed.

Lemma glob_keeps_retention dir entries pattern :
  keeps retention_frame (glob orc dir entries pattern).
Proof.
  unfold glob. repeat keeps_step. apply retention_frame_emit. exact I.
Qed.

Lemma unlink_keeps_retention y m n :
  keeps retention_frame (unlink orc y m n).
Proof.
  unfold unlink. repeat keeps_step;
    try (apply retention_frame_emit; exact I);
    apply retention_frame_set_tree.
Qed.

Lemma cleanup_file_keeps c tm y m f k :
  keeps retention_frame (cleanup_file orc c tm y m f k).
Proof.
  unfold cleanup_file.
  repeat (first [ apply unlink_keeps_retention | apply log_keeps_retention | keeps_step ]).
Qed.

Lemma cleanup_month_keeps c tm y d k :
  keeps retention_frame (cleanup_month orc c tm y d k).
Proof.
  unfold cleanup_month.
  repeat (first [ apply glob_keeps_retention | apply cleanup_file_keeps | keeps_step ]).
Qed.

Lemma cleanup_year_keeps c tm d k :
  keeps retention_frame (cleanup_year orc c tm d k).
Proof.
  unfold cleanup_year.
  repeat (first [ apply glob_keeps_retention | apply cleanup_month_keeps | keeps_step ]).
Qed.

Lemma cleanup_scan_keeps c tm :
  keeps retention_frame (cleanup_scan orc c tm).
Proof.
  unfold cleanup_scan.
  repeat (first [ apply glob_keeps_retention | apply cleanup_year_keeps
                | apply log_keeps_retention | keeps_step ]).
Qed.

Lemma cleanup_old_backups_keeps cfg tm :
  keeps retention_frame (cleanup_old_backups orc cfg tm).
Proof.
  unfold cleanup_old_backups.
  repeat (first [ apply cleanup_scan_keeps | apply log_keeps_retention | keeps_step ]).
Qed.


End Retention.

(* ===================================================================== *)
(** * Stepping through a run *)
(* ===================================================================== *)

Section WP.

Context {A : Type} (Q : result A -> world -> Prop) (w : world).

Lemma wp_ret (a : A) : Q (Ret a) w -> wp (ret a) Q w.
Proof. exact (fun H => H). Qed.

Lemma wp_raise (e : exn) : Q (Raise e) w -> wp (raise e) Q w.
Proof. exact (fun H => H). Qed.

Lemma wp_get (f : world -> A) : Q (Ret (f w)) w -> wp (get f) Q w.
Proof. exact (fun H => H). Qed.

Lemma wp_bind {B} (m : M B) (k : B -> M A) :
  wp m (fun r w' => match r with
                    | Ret b => wp (k b) Q w'
                    | Raise e => Q (Raise e) w'
                    end) w ->
  wp (bind m k) Q w.
Proof.
  unfold wp, bind. destruct (m w) as [[b|e] w']; simpl; auto.
Qed.

Lemma wp_try_except (m : M A) (h : exn -> M A) :
  wp m (fun r w' => match r with
                    | Ret a => Q (Ret a) w'
                    | Raise e => wp (h e) Q w'
                    end) w ->
  wp (try_except m h) Q w.
Proof.
  unfold wp, try_except. destruct (m w) as [[a|e] w']; simpl; auto.
Qed.

Lemma wp_try_finally (m : M A) (f : M unit) :
  wp m (fun r w' => wp f (fun r2 w'' => match r2 with
                                        | Ret _ => Q r w''
                                        | Raise e => Q (Raise e) w''
                                        end) w') w ->
  wp (try_finally m f) Q w.
Proof.
  unfold wp, try_finally. destruct (m w) as [r w']; simpl.
  destruct (f w') as [[u|e] w'']; simpl; auto.
Qed.


(** a step that is known to return and to keep [R] *)
Lemma wp_returns (R : world -> world -> Prop) (m : M A) :
  returns m -> keeps R m ->
  (forall a w', R w w' -> Q (Ret a) w') ->
  wp m Q w.
Proof.
  intros Hr Hk HQ. unfold wp.
  specialize (Hk w). destruct (Hr w) as (a & w' & E).
  rewrite E in *. simpl in *. auto.
Qed.

End WP.

Section WPUnit.

Context (Q : result unit -> world -> Prop) (w : world).

Lemma wp_modify (f : world -> world) : Q (Ret tt) (f w) -> wp (modify f) Q w.
Proof. exact (fun H => H). Qed.

Lemma wp_emit (e : event) : Q (Ret tt) (add_event e w) -> wp (emit e) Q w.
Proof. exact (fun H => H). Qed.

Lemma wp_log (l : level) (msg : string) :
  Q (Ret tt) (add_event (EvLog l msg) w) -> wp (log l msg) Q w.
Proof. exact (fun H => H). Qed.

Lemma wp_answer_ok : Q (Ret tt) w -> wp (answer None) Q w.
Proof. exact (fun H => H). Qed.

Lemma wp_answer_raise (e : exn) : Q (Raise e) w -> wp (answer (Some e)) Q w.
Proof. exact (fun H => H). Qed.

End WPUnit.

Lemma wp_elim {A} (m : M A) (w : world) (Q : result A -> world -> Prop) :
  wp m Q w -> forall r w', m w = (r, w') -> Q r w'.
Proof. unfold wp. intros H r w' E. rewrite E in H. exact H. Qed.

(** state a goal about the outcome of running [m] from [w] as a [wp] *)
Ltac wp_start m w :=
  let r := fresh "r" in
  let w' := fresh "w'" in
  let E := fresh "E" in
  destruct (m w) as [r w'] eqn:E; cbn [fst snd];
  revert r w' E; apply wp_elim.

(** use what a hypothesis says about the term a [match] is stuck on, or
    else split on it *)
Ltac wp_case x :=
  first
    [ match goal with H : x = _ |- _ => rewrite H end
    | match goal with
      | H : ?y = _ |- _ => lazymatch x with context [y] => rewrite H end
      end
    | is_var x; destruct x
    | destruct x eqn:? ].

Ltac head_of t :=
  lazymatch t with
  | ?f _ => head_of f
  | _ => t
  end.

(** The script's own functions are opened when a run reaches them; the
    retention pass is left to its lemmas. *)
Ltac wp_open :=
  lazymatch goal with
  | |- wp ?m _ _ =>
      let h := head_of m in
      lazymatch h with
      | @cleanup_old_backups => fail
      | @cleanup_scan => fail
      | @for_fold => cbn [for_fold]
      | _ => unfold h
      end
  end.

(** bring the world and the tests on it to normal form *)
Ltac wcbn :=
  cbn [fst snd negb andb orb is_GitCommandError truthy is_dir children node_name lookup
       String.eqb Ascii.eqb Bool.eqb
       root_exists tree git_dir commits pushes temp_exists temp_files ssh_open
       v_ssh v_temp_dir v_changed trace
       set_root_exists set_tree set_git_dir set_commits set_pushes set_temp set_ssh_open
       set_v_ssh set_v_temp_dir set_v_changed add_event].

Ltac wcbn_in H :=
  cbn [fst snd negb andb orb is_GitCommandError truthy is_dir children node_name lookup
       String.eqb Ascii.eqb Bool.eqb
       root_exists tree git_dir commits pushes temp_exists temp_files ssh_open
       v_ssh v_temp_dir v_changed trace
       set_root_exists set_tree set_git_dir set_commits set_pushes set_temp set_ssh_open
       set_v_ssh set_v_temp_dir set_v_changed add_event] in H.

Ltac wnorm := wcbn; rewrite ?String.eqb_refl; wcbn.

(** the postcondition of the step at hand is kept under a name, so that
    the goal stays the size of that step *)
Ltac wp_name_post :=
  lazymatch goal with
  | |- wp _ ?Q _ =>
      tryif is_var Q then idtac else (let K := fresh "K" in set (K := Q))
  end.

Ltac wp_rule lem := apply lem; try wp_name_post.

Ltac wp_step :=
  wnorm;
  lazymatch goal with
  | |- wp (bind _ _) _ _ => wp_rule @wp_bind
  | |- wp (ret _) _ _ => apply wp_ret
  | |- wp (raise _) _ _ => apply wp_raise
  | |- wp (get _) _ _ => apply wp_get
  | |- wp (modify _) _ _ => apply wp_modify
  | |- wp (emit _) _ _ => apply wp_emit
  | |- wp (log _ _) _ _ => apply wp_log
  | |- wp (try_except _ _) _ _ => wp_rule @wp_try_except
  | |- wp (try_finally _ _) _ _ => wp_rule @wp_try_finally
  | |- wp (answer None) _ _ => apply wp_answer_ok
  | |- wp (answer (Some _)) _ _ => apply wp_answer_raise
  | |- wp (answer ?a) _ _ => wp_case a
  | |- wp (if ?b then _ else _) _ _ => wp_case b
  | |- wp (match ?x with _ => _ end) _ _ => wp_case x
  | |- wp (let _ := _ in _) _ _ => cbv zeta
  | |- wp _ _ _ => wp_open
  | |- match ?x with _ => _ end => is_var x; destruct x
  | |- ?K _ _ => is_var K; unfold K; cbv beta iota; try clear K
  end.

Ltac wp_run := repeat wp_step; wnorm.
(* ===================================================================== *)
(** * Running the script symbolically *)
(* ===================================================================== *)

Lemma trace_grew_nil (t : list event) : t = [] ++ t.
Proof. reflexivity. Qed.

Lemma trace_grew_cons (e : event) (l evs t : list event) :
  l = evs ++ t -> e :: l = (e :: evs) ++ t.
Proof. intros ->. reflexivity. Qed.

Lemma trace_grew_app (evs0 l evs t : list event) :
  l = evs ++ t -> evs0 ++ l = (evs0 ++ evs) ++ t.
Proof. intros ->. apply app_assoc. Qed.

(** the events a run added, read off the final trace *)
Ltac trace_grew :=
  repeat first [ apply trace_grew_nil | apply trace_grew_cons | apply trace_grew_app ].

(** an event is among those a run added *)
Ltac in_trace :=
  cbn [In];
  first [ left; reflexivity
        | right; in_trace
        | apply in_or_app; right; in_trace ].

Ltac unfold_script :=
  unfold main_run, run_backup, cleanup_old_backups, git_commit_and_push, check_for_changes,
    save_to_repo, validate_backup_files, validate_one, download_config, connect_ssh,
    check_disk_space, send_macos_notification;
  unfold mkdir_root, statvfs_bytes, ssh_connect, ssh_close, mkdtemp, rmtree, exec_command,
    sftp_get, path_exists, getsize, tarfile_open, read_text, mkdir_date, copy2,
    repo_init, create_remote, repo_open, git_add, is_dirty, index_commit, remote_origin,
    push, osascript, for_each;
  unfold try_finally, try_except, bind, log, emit, modify, get, answer, ret, raise.

(** A [match] of the goal is stuck on an answer of the outside, a
    setting or an exception: use what a hypothesis says about it, or
    else split on it. *)
Ltac case_step :=
  match goal with
  | H : ?x = _ |- context [match ?x with _ => _ end] => rewrite H
  | |- context [match ?x with _ => _ end] =>
      lazymatch x with
      | context [match _ with _ => _ end] => fail
      | _ =>
          lazymatch type of x with
          | bool => destruct x eqn:?
          | option _ => destruct x eqn:?
          | sum _ _ => destruct x eqn:?
          | prod _ _ => destruct x eqn:?
          | exn => destruct x
          end
      end
  end.

Ltac run_cases :=
  repeat (cbn -[Z.mul Z.ltb Z.eqb listed]; unfold bind, ret, raise; rewrite ?String.eqb_refl;
          try case_step).

Ltac no_such_event := repeat (apply Forall_cons; [reflexivity | ]); apply Forall_nil.

(* ===================================================================== *)
(** * The retention pass inside a run *)
(* ===================================================================== *)

Lemma cleanup_old_backups_returns (orc : env) (cfg : config) (tm : bool) (c : Dates.instant) :
  cutoff orc cfg = Some c -> returns (cleanup_old_backups orc cfg tm).
Proof.
  intro Hc. unfold cleanup_old_backups. rewrite Hc.
  apply returns_bind; [apply returns_ret | intro c'].
  apply returns_try_except. intro e.
  apply returns_bind; [apply returns_log | intro; apply returns_ret].
Qed.



Example cutoff_example :
  cutoff ex_env ex_cfg = Some {| Dates.ord := Dates.toordinal 2026 10 5; Dates.tod := 43200000000 |}.
Proof. reflexivity. Qed.

(* ===================================================================== *)
(** * C1: what the retention pass removes *)
(* ===================================================================== *)

(** C1 (code does otherwise).  The claim: with backups dated the day
    before the cutoff, the day of the cutoff and the day after, the
    prune removes those older than the cutoff and returns their number,
    and a dry run returns the same number without removing.  The code,
    on backups named as [save_to_repo] names them
    ([backup-<date>.tar.gz]): the pattern [backup-*.{tar.gz,cfg}] is
    matched literally, no such file is enumerated, nothing is removed and
    the pass returns 0, dry run or not. *)
Theorem retention_enumerates_no_dated_backup :
  cleanup_old_backups ex_env ex_cfg false ex_world
    = (Ret 0,
       add_event (EvGlob ["2026"; "10"] "backup-*.{tar.gz,cfg}")
         (add_event (EvGlob ["2026"] "[0-9][0-9]")
            (add_event (EvGlob [] "[0-9][0-9][0-9][0-9]") ex_world)))
  /\ tree (snd (cleanup_old_backups ex_env ex_cfg false ex_world)) = ex_tree
  /\ fst (cleanup_old_backups ex_env ex_cfg true ex_world) = Ret 0.
Proof. split; [reflexivity | split; reflexivity]. Qed.

(** The comparison that follows the enumeration is on instants: under
    names the pattern does match, the backup dated the day of the cutoff
    (midnight) is older than a cutoff at noon and goes as well. *)
Example retention_on_brace_names :
  let r := cleanup_old_backups ex_env ex_cfg false (world_of true ex_tree_braces) in
  fst r = Ret 2 /\
  tree (snd r) = [Dir "2026" [Dir "10" [File "backup-2026-10-06.{tar.gz,cfg}"]]].
Proof. split; reflexivity. Qed.

(* ===================================================================== *)
(** * C2: what is retrieved *)
(* ===================================================================== *)

(** C2 (code does otherwise).  The claim: one artifact is fetched for
    each format of the configured list.  The code, with both [tar.gz]
    and [cfg] configured: the retrieval of [cfg] is commented out, so
    [download_config] fetches the archive alone, and the run stores one
    file for the day. *)
Theorem download_fetches_archive_only :
  formats ex_cfg = ["tar.gz"; "cfg"] /\
  fst (download_config ex_env ex_cfg false ex_world)
    = Ret ([("tar.gz", "/tmp/tmpk3v9/config.boot.tar.gz")], "/tmp/tmpk3v9") /\
  temp_files (snd (download_config ex_env ex_cfg false ex_world))
    = [("/tmp/tmpk3v9/config.boot.tar.gz", ex_archive)] /\
  tree (snd (run_backup ex_env ex_cfg false ex_fresh))
    = [Dir "2026" [Dir "11" [File "backup-2026-11-04.tar.gz"]]].
Proof. repeat split; reflexivity. Qed.

(** Whatever is configured, the batch that [download_config] returns
    holds the archive or nothing. *)
Lemma download_batch (orc : env) (cfg : config) (tm : bool) (w : world) :
  match fst (download_config orc cfg tm w) with
  | Ret (batch, d) =>
      batch = (if listed "tar.gz" (formats cfg)
               then [("tar.gz", path_join d "config.boot.tar.gz")] else [])
  | Raise _ => True
  end.
Proof.
  unfold_script. run_cases; auto.
Qed.

(* ===================================================================== *)
(** * C3: the commit and its message *)
(* ===================================================================== *)

Lemma append_cancel_l (p a b : string) : (p ++ a)%string = (p ++ b)%string -> a = b.
Proof.
  induction p as [|c p IH]; simpl; intro H; [exact H|].
  injection H as H. exact (IH H).
Qed.

Lemma messages_differ (d : string) : msg_changed d <> msg_no_changes d.
Proof.
  unfold msg_changed, msg_no_changes. intro H.
  apply append_cancel_l in H. apply append_cancel_l in H. discriminate H.
Qed.

(** C3, as stated, fails: when the change check itself fails, the
    script assumes a change, so the commit says "Configuration changed"
    over a working tree that is what was committed last. *)
Lemma commit_message_can_report_change_without_one :
  tree_differs ex_env_check_fails = false /\
  commits (snd (run_backup ex_env_check_fails ex_cfg false ex_world))
    = ["Backup 2026-11-04 - Configuration changed"; "Backup 2026-11-03 - No changes"].
Proof. split; reflexivity. Qed.

(** C3 (amended).  In a run that is not a dry run and reaches the commit
    step (the repository opens or initialises, staging goes through),
    [git_commit_and_push], called as [run_backup] calls it, attempts a
    commit whether or not the working tree changed, every commit it
    attempts carries the one message, and the commit is recorded when
    [index.commit] goes through.  The message is "Configuration changed"
    exactly when the change check reports a change: the working tree
    differs from the last commit, or the check itself failed; otherwise
    it is "No changes". *)
Theorem commit_message_follows_change_check (orc : env) (cfg : config) (w : world) :
  (if git_dir w then ans_git_open orc else ans_git_init orc) = None ->
  ans_git_add orc = None ->
  let d := Dates.strftime_ymd (now orc) in
  let msg := if change_reported orc then msg_changed d else msg_no_changes d in
  let w' := snd (git_commit_and_push orc cfg true false w) in
  (exists evs,
      trace w' = evs ++ trace w /\ In (EvCommit msg) evs /\
      forall m, In (EvCommit m) evs -> m = msg) /\
  (ans_commit orc = None -> commits w' = msg :: commits w) /\
  (msg = msg_changed d <-> tree_differs orc = true \/ ans_is_dirty orc <> None).
Proof.
  intros Hrepo Hadd d msg w'. subst w' msg.
  split; [|split].
  - subst d. unfold change_reported.
    wp_start (git_commit_and_push orc cfg true false) w.
    destruct (tree_differs orc) eqn:Hdiff; destruct (git_dir w) eqn:Hgit; wp_run.
    all: eexists; split; [trace_grew | split; [cbn [In]; tauto | ]].
    all: intros m Hm; cbn [In] in Hm.
    all: repeat (destruct Hm as [Hm | Hm]; [try discriminate Hm | ]);
         try (injection Hm as <-; reflexivity); try contradiction.
  - intro Hcommit. subst d. unfold change_reported.
    wp_start (git_commit_and_push orc cfg true false) w.
    destruct (tree_differs orc) eqn:Hdiff; destruct (git_dir w) eqn:Hgit; wp_run;
      reflexivity.
  - clearbody d. unfold change_reported.
    destruct (tree_differs orc); destruct (ans_is_dirty orc) as [e|]; cbn [orb]; split;
      try (intros; reflexivity); try (intros; left; reflexivity);
      try (intros; right; discriminate).
    + intro H. symmetry in H. destruct (messages_differ d). exact H.
    + intros [H | H]; [discriminate H | destruct H; reflexivity].
Qed.

Lemma commit_message_follows_change_check_witness :
  (if git_dir ex_world then ans_git_open ex_env_check_fails
   else ans_git_init ex_env_check_fails) = None /\
  ans_git_add ex_env_check_fails = None /\
  commits (snd (git_commit_and_push ex_env_check_fails ex_cfg true false ex_world))
    = "Backup 2026-11-04 - Configuration changed" :: commits ex_world.
Proof.
  split; [reflexivity | split; [reflexivity | ]].
  exact (proj1 (proj2 (commit_message_follows_change_check ex_env_check_fails ex_cfg ex_world
                         eq_refl eq_refl)) eq_refl).
Defined.

(* ===================================================================== *)
(** * C4: a failing push *)
(* ===================================================================== *)



(* ===================================================================== *)
(** * C5: failures of the local Git operations *)
(* ===================================================================== *)

(** C5 (code does otherwise).  The claim: a failure of staging or of
    the commit aborts the run.  The code, when [git add] fails with a
    [GitCommandError]: the handler meant for the push takes it, logs
    "Git push failed" as a warning and returns; no commit is created, no
    push is attempted, the retention pass runs and the run reports
    success with exit status 0. *)
Theorem staging_failure_is_taken_for_push_failure :
  ans_git_add ex_env_add_fails = Some GitCommandError /\
  fst (run_backup ex_env_add_fails ex_cfg false ex_world) = Ret true /\
  fst (main_run ex_env_add_fails ex_cfg false ex_world) = 0 /\
  commits (snd (run_backup ex_env_add_fails ex_cfg false ex_world)) = commits ex_world /\
  In (EvLog WARNING "Git push failed: {e}")
     (trace (snd (run_backup ex_env_add_fails ex_cfg false ex_world))) /\
  ~ In EvPush (trace (snd (run_backup ex_env_add_fails ex_cfg false ex_world))).
Proof.
  repeat split; try reflexivity.
  - vm_compute. tauto.
  - vm_compute. intuition discriminate.
Qed.

(** The same failure under any other exception class does abort the
    run, and so does a failing commit. *)
Example staging_failure_of_other_class_aborts :
  fst (run_backup (with_ans_git_add (Some OSError) ex_env) ex_cfg false ex_world) = Ret false.
Proof. reflexivity. Qed.

(* ===================================================================== *)
(** * C6: the dry run *)
(* ===================================================================== *)


(** A dry run can also leave its temporary directory behind: when the
    transfer fails, [mkdtemp] has made the directory, but [run_backup]
    never got its name, so the [finally] block removes nothing. *)
Example dry_run_can_leave_workspace :
  temp_exists ex_world = false /\
  fst (run_backup ex_env_transfer_fails ex_cfg true ex_world) = Ret false /\
  temp_exists (snd (run_backup ex_env_transfer_fails ex_cfg true ex_world)) = true.
Proof. repeat split; reflexivity. Qed.

(* ===================================================================== *)
(** * C7: the temporary workspace *)
(* ===================================================================== *)

(** C7 (code does otherwise).  The claim: the temporary workspace is
    removed on every way out.  The code, when the transfer fails inside
    [download_config]: the directory was made, but [run_backup] never
    got its name (its [temp_dir] is still [None] when the [finally]
    block runs), so nothing removes it and it stays on disk after the
    run has returned [False]. *)
Theorem failed_download_leaves_workspace :
  temp_exists ex_world = false /\
  fst (run_backup ex_env_transfer_fails ex_cfg false ex_world) = Ret false /\
  temp_exists (snd (run_backup ex_env_transfer_fails ex_cfg false ex_world)) = true /\
  v_temp_dir (snd (run_backup ex_env_transfer_fails ex_cfg false ex_world)) = None /\
  ~ In (EvRmtree "/tmp/tmpk3v9")
       (trace (snd (run_backup ex_env_transfer_fails ex_cfg false ex_world))).
Proof.
  repeat split; try reflexivity.
  vm_compute. intuition discriminate.
Qed.

(** When the download returns, the workspace is removed: here on the
    success path and on a validation failure. *)
Example workspace_removed_when_download_returns :
  temp_exists (snd (run_backup ex_env ex_cfg false ex_world)) = false /\
  temp_exists
    (snd (run_backup
            (with_ans_sftp_get (inr {| fd_size := 0; fd_targz := false; fd_text := EmptyString |})
               ex_env)
            ex_cfg false ex_world)) = false.
Proof. split; reflexivity. Qed.

(* ===================================================================== *)
(** * C8: the disk-space check comes before the network *)
(* ===================================================================== *)

(** C8.  When [statvfs] reports fewer free bytes at the repository root
    than the minimum of 100 MB, the run fails ([run_backup] returns
    [False], the process exits with status 1), an error is logged, and
    nothing the run did talks to the network: no connection to the
    router is attempted. *)
Theorem low_disk_space_aborts_before_network
    (orc : env) (cfg : config) (tm : bool) (w : world) (bavail frsize : Z) :
  ans_statvfs orc = inr (bavail, frsize) ->
  bavail * frsize < 100 * (1024 * 1024) ->
  fst (run_backup orc cfg tm w) = Ret false /\
  fst (main_run orc cfg tm w) = 1 /\
  ssh_open (snd (run_backup orc cfg tm w)) = ssh_open w /\
  exists evs,
    trace (snd (run_backup orc cfg tm w)) = evs ++ trace w /\
    Forall (fun e => is_network e = false) evs /\
    In (EvLog ERROR "Backup failed: {e}") evs.
Proof.
  intros Hs Hlow.
  apply Z.ltb_lt in Hlow.
  unfold_script. rewrite Hs.
  cbn -[Z.mul Z.ltb]. 
  destruct (ans_mkdir_root orc) as [e|]; cbn -[Z.mul Z.ltb]; rewrite ?Hlow;
    run_cases;
    (repeat split; [ eexists; split; [trace_grew | split; [no_such_event | simpl; tauto ]]]).
Qed.

(** 40 MB free *)
Lemma low_disk_space_aborts_before_network_witness :
  ans_statvfs (with_ans_statvfs (inr (10000, 4096)) ex_env) = inr (10000, 4096) /\
  10000 * 4096 < 100 * (1024 * 1024) /\
  fst (run_backup (with_ans_statvfs (inr (10000, 4096)) ex_env) ex_cfg false ex_world)
    = Ret false.
Proof.
  split; [reflexivity | split; [reflexivity | ]].
  exact (proj1 (low_disk_space_aborts_before_network
                  (with_ans_statvfs (inr (10000, 4096)) ex_env) ex_cfg false ex_world
                  10000 4096 eq_refl eq_refl)).
Defined.

(* ===================================================================== *)
(** * C9: the empty batch *)
(* ===================================================================== *)

Lemma retention_events_handle_no_artifact (evs : list event) :
  Forall retention_event evs -> Forall (fun e => handles_artifact e = false) evs.
Proof.
  apply Forall_impl. intros [] H; solve [reflexivity | destruct H].
Qed.

Ltac no_artifact H :=
  repeat first
    [ apply Forall_nil
    | apply Forall_cons; [reflexivity | ]
    | apply Forall_app; split
    | exact H ].

(** C9.  Validation of an empty batch succeeds: the loop has nothing to
    check, and [validate_backup_files] logs success and returns [True].
    So when the configured formats do not list [tar.gz] (the one format
    the download knows), and preflight and connection go through, the
    download returns an empty batch, validation passes, and the run
    ends as a success without having fetched or stored any artifact: a
    dry run returns [True]; a real run, when the dated directory, the
    version control steps and the retention pass go through, commits and
    returns [True], exit status 0, with the success line logged. *)
Theorem empty_batch_is_a_successful_backup
    (orc : env) (cfg : config) (w : world) (c : Dates.instant) :
  listed "tar.gz" (formats cfg) = false ->
  steps_through_validation_succeed orc cfg ->
  (forall w0,
      validate_backup_files [] w0 = (Ret true, add_event (EvLog INFO "Files validated") w0)) /\
  (forall tm w0,
      ans_mkdtemp orc = None ->
      fst (download_config orc cfg tm w0) = Ret ([], tmp_name orc)) /\
  (fst (run_backup orc cfg true w) = Ret true /\
   exists evs,
     trace (snd (run_backup orc cfg true w)) = evs ++ trace w /\
     Forall (fun e => handles_artifact e = false) evs /\
     In (EvLog INFO "Files validated") evs) /\
  (dated_dir_available orc w ->
   version_control_succeeds orc cfg w ->
   cutoff orc cfg = Some c ->
   fst (run_backup orc cfg false w) = Ret true /\
   fst (main_run orc cfg false w) = 0 /\
   exists evs,
     trace (snd (run_backup orc cfg false w)) = evs ++ trace w /\
     Forall (fun e => handles_artifact e = false) evs /\
     In (EvLog INFO "Files validated") evs /\
     In (EvLog INFO "Backup completed successfully in {duration:.1f} seconds") evs).
Proof.
  intros Hfmt (Hroot & (bavail & frsize & Hstat & Hspace) & Hconn & Htmp & _).
  apply Z.ltb_ge in Hspace.
  split; [ | split; [ | split ] ].
  - intro w0. reflexivity.
  - intros tm w0 _.
    wp_start (download_config orc cfg tm) w0. wp_run. reflexivity.
  - wp_start (run_backup orc cfg true) w. wp_run.
    split; [reflexivity | ].
    eexists; split; [trace_grew | split; [no_artifact I | in_trace]].
  - intros (Hmk & Hcopy & t1 & Htree) (Hrepo & Hadd & Hcommit & Hpushed) Hcut.
    unfold main_run.
    wp_start (run_backup orc cfg false) w.
    destruct (git_dir w) eqn:Hgit;
      (destruct (auto_push cfg) eqn:Hauto;
       [ destruct (Hpushed eq_refl) as (Hremote & Hpush) | clear Hpushed ]);
      wp_run.
    all: eapply (wp_returns _ _ retention_frame);
      [ eapply cleanup_old_backups_returns; eassumption
      | apply cleanup_old_backups_keeps
      | intros n w6 (F1 & F2 & F3 & F4 & F5 & F6 & F7 & F8 & F9 & F10 & evs6 & F11 & F12) ].
    all: wcbn_in F5; wcbn_in F8; wcbn_in F9; wcbn_in F11.
    all: apply retention_events_handle_no_artifact in F12.
    all: wp_run.
    all: rewrite F11.
    all: split; [reflexivity | split; [reflexivity | ]].
    all: eexists; split; [trace_grew | split; [no_artifact F12 | split; in_trace]].
Qed.

Lemma empty_batch_is_a_successful_backup_witness :
  listed "tar.gz" (formats ex_cfg_text_only) = false /\
  steps_through_validation_succeed ex_env ex_cfg_text_only /\
  fst (run_backup ex_env ex_cfg_text_only true ex_world) = Ret true.
Proof.
  assert (Hsteps : steps_through_validation_succeed ex_env ex_cfg_text_only).
  { repeat split; try reflexivity.
    - exists 2500000, 4096. split; [reflexivity | vm_compute; discriminate].
    - discriminate. }
  split; [reflexivity | split; [exact Hsteps | ]].
  exact (proj1 (proj1 (proj2 (proj2
           (empty_batch_is_a_successful_backup ex_env ex_cfg_text_only ex_world
              {| Dates.ord := Dates.toordinal 2026 10 5; Dates.tod := 43200000000 |}
              eq_refl Hsteps))))).
Defined.

(** the same configuration in a real run: a commit for the day, and no
    file in the repository *)
Example text_only_run_stores_nothing :
  fst (run_backup ex_env ex_cfg_text_only false ex_fresh) = Ret true /\
  tree (snd (run_backup ex_env ex_cfg_text_only false ex_fresh)) = [Dir "2026" [Dir "11" []]] /\
  commits (snd (run_backup ex_env ex_cfg_text_only false ex_fresh))
    = ["Backup 2026-11-04 - Configuration changed"].
Proof. repeat split; reflexivity. Qed.

(* ===================================================================== *)
(** * C10: exceptions of the retention pass *)
(* ===================================================================== *)





(* ===================================================================== *)
(** * More rules for runs *)
(* ===================================================================== *)

Lemma keeps_modify (R : world -> world -> Prop) (f : world -> world) :
  (forall w, R w (f w)) -> keeps R (modify f).
Proof. intros H w. apply H. Qed.

(** the value a [return] hands on is known to what follows *)
Lemma keeps_bind_ret (R : world -> world -> Prop) {A B} (a : A) (k : A -> M B) :
  keeps R (k a) -> keeps R (bind (ret a) k).
Proof. intros H w. exact (H w). Qed.

Lemma keeps_bind_raise (R : world -> world -> Prop) {HR : PreOrder R} {A B}
    (e : exn) (k : A -> M B) :
  keeps R (bind (raise e) k).
Proof. intro w. simpl. reflexivity. Qed.

(** what follows a step runs on a value the step did return *)
Lemma keeps_bind_value (R : world -> world -> Prop) {HR : PreOrder R} {A B}
    (m : M A) (k : A -> M B) :
  keeps R m -> (forall a w, fst (m w) = Ret a -> keeps R (k a)) -> keeps R (bind m k).
Proof.
  intros Hm Hk w. unfold bind.
  specialize (Hm w). destruct (m w) as [[a|e] w1] eqn:E; simpl in *.
  - etransitivity; [exact Hm | ]. apply (Hk a w). rewrite E. reflexivity.
  - exact Hm.
Qed.

(** the body of a loop runs on the elements of its list *)
Lemma keeps_for_fold_in (R : world -> world -> Prop) {HR : PreOrder R} {X S}
    (l : list X) (body : X -> S -> M S) :
  (forall x s, In x l -> keeps R (body x s)) -> forall s, keeps R (for_fold l body s).
Proof.
  induction l as [|x r IH]; intros Hb s; simpl.
  - apply keeps_ret. exact HR.
  - apply keeps_bind; [exact HR | apply Hb; left; reflexivity | ].
    intro s'. apply IH. intros y s0 Hy. apply Hb. right. exact Hy.
Qed.

Lemma returns_get {A} (f : world -> A) : returns (get f).
Proof. intro w. exists (f w), w. reflexivity. Qed.

Lemma returns_try_finally {A} (m : M A) (f : M unit) :
  returns m -> returns f -> returns (try_finally m f).
Proof.
  intros Hm Hf w. unfold try_finally.
  destruct (Hm w) as (a & w1 & ->). destruct (Hf w1) as (u & w2 & ->).
  exists a, w2. reflexivity.
Qed.

Lemma wp_mono {A} (m : M A) (Q Q' : result A -> world -> Prop) (w : world) :
  wp m Q w -> (forall r w', Q r w' -> Q' r w') -> wp m Q' w.
Proof. unfold wp. auto. Qed.

(** a loop whose every step either keeps the loop variable or raises,
    and keeps [R], does so as a whole *)
Lemma for_fold_unchanged {X S : Type} (R : world -> world -> Prop) `{PreOrder _ R}
    (l : list X) (body : X -> S -> M S) :
  (forall x s w, In x l ->
      wp (body x s) (fun r w' => R w w' /\ (r = Ret s \/ exists e, r = Raise e)) w) ->
  forall s w,
    wp (for_fold l body s) (fun r w' => R w w' /\ (r = Ret s \/ exists e, r = Raise e)) w.
Proof.
  induction l as [|x l IH]; intros Hb s w.
  - cbn [for_fold]. apply wp_ret. split; [reflexivity | left; reflexivity].
  - cbn [for_fold]. apply wp_bind.
    specialize (Hb x s w (or_introl eq_refl)) as Hx. unfold wp in Hx |- *.
    destruct (body x s w) as [[s'|e] w1]; cbn [fst snd] in *.
    + destruct Hx as [HR [[= ->] | [e He]]]; [|discriminate He].
      assert (IHl := IH (fun x s w Hin => Hb x s w (or_intror Hin)) s w1).
      unfold wp in IHl. destruct IHl as [HR' Hres].
      split; [etransitivity; eassumption | exact Hres].
    + destruct Hx as [HR _]. split; [exact HR | right; eexists; reflexivity].
Qed.

(** go through a computation rule by rule, opening the script's
    functions on the way; [leaf] shows that one state change keeps the
    relation, [pre] is tried first at every step *)
Ltac keeps_auto_with pre leaf :=
  repeat
    (cbn [negb];
     first
       [ pre
       | lazymatch goal with
         | |- keeps _ (modify _) => apply keeps_modify; leaf
         | |- keeps _ (emit _) => unfold emit
         | |- keeps _ (log _ _) => unfold log
         | |- keeps _ (for_each _ _) => unfold for_each
         end
       | keeps_step
       | lazymatch goal with
         | |- keeps _ ?m => let h := head_of m in unfold h
         end ]).

Ltac keeps_auto leaf := keeps_auto_with fail leaf.

(** the trace grew by nothing, or by one event that is allowed *)
Ltac trace_leaf :=
  first [ exists []; split; [reflexivity | constructor]
        | eexists [_]; split; [reflexivity | repeat constructor] ].

(* ===================================================================== *)
(** * Facts on strings *)
(* ===================================================================== *)

Lemma str_app_nil_r (s : string) : (s ++ EmptyString)%string = s.
Proof. induction s as [|a s IH]; simpl; [reflexivity | rewrite IH; reflexivity]. Qed.

Lemma str_app_assoc (s t u : string) : ((s ++ t) ++ u)%string = (s ++ (t ++ u))%string.
Proof. induction s as [|a s IH]; simpl; [reflexivity | rewrite IH; reflexivity]. Qed.

Lemma str_length_app (s t : string) :
  String.length (s ++ t) = (String.length s + String.length t)%nat.
Proof. induction s as [|a s IH]; simpl; [reflexivity | rewrite IH; reflexivity]. Qed.

Lemma lacks_app (c : ascii) (s t : string) :
  lacks c (s ++ t) = lacks c s && lacks c t.
Proof.
  induction s as [|a s IH]; simpl; [reflexivity | ].
  rewrite IH. apply andb_assoc.
Qed.

Lemma before_last_lacks (c : ascii) (s : string) :
  lacks c s = true -> PyStr.before_last c s = None.
Proof.
  induction s as [|a s IH]; simpl; [reflexivity | ].
  intro H. apply andb_prop in H. destruct H as [Ha Hs].
  rewrite (IH Hs). apply negb_true_iff in Ha. rewrite Ha. reflexivity.
Qed.

Lemma before_last_app (c : ascii) (s t : string) :
  lacks c t = true -> PyStr.before_last c (s ++ String c t) = Some s.
Proof.
  intro Ht. induction s as [|a s IH]; simpl.
  - rewrite (before_last_lacks _ _ Ht), Ascii.eqb_refl. reflexivity.
  - rewrite IH. reflexivity.
Qed.

(** a text without the first character of the separator is not split *)
Lemma split_go_lacks (c : ascii) (sep s cur : string) :
  lacks c s = true ->
  PyStr.split_go (String c sep) s 0 cur = [(cur ++ s)%string].
Proof.
  revert cur. induction s as [|a s IH]; intros cur H; simpl.
  - rewrite str_app_nil_r. reflexivity.
  - apply andb_prop in H. destruct H as [Ha Hs]. apply negb_true_iff in Ha.
    destruct (ascii_dec c a) as [-> | _].
    + rewrite Ascii.eqb_refl in Ha. discriminate.
    + rewrite (IH _ Hs). unfold PyStr.chr.
      rewrite str_app_assoc. reflexivity.
Qed.

(** after its own prefix, a name without a further [b] is split in two *)
Lemma split_after_prefix (s : string) :
  lacks "b" s = true -> PyStr.split "backup-" ("backup-" ++ s) = [EmptyString; s].
Proof.
  intro H. unfold PyStr.split. cbn [append].
  cbn [PyStr.split_go PyStr.startswith String.length Nat.sub].
  destruct s as [|a r]; [reflexivity | ].
  cbn [String.prefix].
  cbn -[PyStr.split_go].
  rewrite (split_go_lacks "b" "ackup-" (String a r) EmptyString H). reflexivity.
Qed.

Lemma digit_differs (a c : ascii) :
  PyStr.is_digit a = true -> PyStr.is_digit c = false -> Ascii.eqb a c = false.
Proof.
  intros Ha Hc. destruct (Ascii.eqb_spec a c) as [-> | _]; [congruence | reflexivity].
Qed.

(* ===================================================================== *)
(** * The retention pass, on every tree *)
(* ===================================================================== *)

#[local] Instance same_tree_preorder : PreOrder same_tree.
Proof.
  split; [intro w; reflexivity | intros a b c Hab Hbc; unfold same_tree in *; congruence].
Qed.

#[local] Instance dry_retention_preorder : PreOrder dry_retention.
Proof.
  split.
  - intro w. split; reflexivity.
  - intros a b c [T1 A1] [T2 A2]. split; [congruence | etransitivity; eassumption].
Qed.

Ltac dry_retention_leaf :=
  intro; split; [reflexivity | eexists [_]; split; [reflexivity | repeat constructor]].

(** what [glob] returns is the entries that match *)
Lemma glob_value (orc : env) dir entries pattern (w : world) (l : list node) :
  fst (glob orc dir entries pattern w) = Ret l ->
  l = filter (fun n => Glob.fnmatch pattern (node_name n)) entries.
Proof.
  unfold glob, bind, emit, modify, answer, ret, raise.
  destruct (ans_scan orc dir); simpl; intros [= <-]; reflexivity.
Qed.

Section DatedNames.

Variable orc : env.

Lemma cleanup_month_enumerates_nothing c tm y (m : node) k w :
  (forall f, In f (children m) -> PyStr.last_char (node_name f) <> Some "}"%char) ->
  wp (cleanup_month orc c tm y m k)
     (fun r w' => same_tree w w' /\ (r = Ret k \/ exists e, r = Raise e)) w.
Proof.
  intro Hnames. unfold cleanup_month.
  destruct (is_dir m); cbn [negb].
  - apply wp_bind. unfold glob.
    change (filter (fun n => Glob.fnmatch "backup-*.{tar.gz,cfg}" (node_name n)) (children m))
      with (backup_glob (children m)).
    rewrite (backup_glob_nothing _ Hnames).
    wp_run.
    + split; [reflexivity | right; eexists; reflexivity].
    + split; [reflexivity | left; reflexivity].
  - apply wp_ret. split; [reflexivity | left; reflexivity].
Qed.

Lemma cleanup_year_enumerates_nothing c tm (y : node) k w :
  (forall m f, In m (children y) -> In f (children m) ->
               PyStr.last_char (node_name f) <> Some "}"%char) ->
  wp (cleanup_year orc c tm y k)
     (fun r w' => same_tree w w' /\ (r = Ret k \/ exists e, r = Raise e)) w.
Proof.
  intro Hnames. unfold cleanup_year.
  destruct (is_dir y); cbn [negb].
  - apply wp_bind. unfold glob. wp_run.
    + split; [reflexivity | right; eexists; reflexivity].
    + eapply wp_mono.
      * apply (for_fold_unchanged same_tree).
        intros m s w0 Hin. apply cleanup_month_enumerates_nothing.
        intros f Hf. apply (Hnames m f); [ | exact Hf].
        apply filter_In in Hin. apply Hin.
      * intros r w' [Ht Hr]. split; [exact Ht | exact Hr].
  - apply wp_ret. split; [reflexivity | left; reflexivity].
Qed.

Lemma cleanup_scan_enumerates_nothing c tm w :
  dated_names_only (tree w) ->
  wp (cleanup_scan orc c tm)
     (fun r w' => same_tree w w' /\ (r = Ret 0 \/ exists e, r = Raise e)) w.
Proof.
  intro Hnames. unfold cleanup_scan.
  apply wp_bind. apply wp_get. cbv beta iota.
  apply wp_bind. unfold glob. wp_run.
  - split; [reflexivity | right; eexists; reflexivity].
  - match goal with |- wp (for_fold ?l ?body ?s) _ ?w0 =>
      pose proof (for_fold_unchanged same_tree l body) as Hfold
    end.
    match type of Hfold with ?P -> _ => assert (Hb : P) end.
    { intros y s w0 Hin. apply cleanup_year_enumerates_nothing.
      intros m f Hm Hf. apply (Hnames y m f); [ | exact Hm | exact Hf].
      apply filter_In in Hin. apply Hin. }
    specialize (Hfold Hb 0). clear Hb.
    match goal with |- wp _ _ ?w0 => specialize (Hfold w0) end.
    unfold wp in Hfold |- *.
    match goal with |- context [for_fold ?l ?b ?s ?w0] =>
      destruct (for_fold l b s w0) as [[n|e] w1]
    end; cbn [fst snd] in *.
    + destruct Hfold as [Ht [[= ->] | [e He]]]; [|discriminate He].
      unfold same_tree in *. wcbn_in Ht. cbn. split; [exact Ht | left; reflexivity].
    + destruct Hfold as [Ht _]. unfold same_tree in *. wcbn_in Ht.
      split; [exact Ht | right; eexists; reflexivity].
Qed.

End DatedNames.

Section RetentionScope.

Variables (orc : env) (cfg : config).

Lemma scope_emit (e : event) :
  unlinks_within orc cfg e -> keeps (adds_only (unlinks_within orc cfg)) (emit e).
Proof.
  intros He w. exists [e]. split; [reflexivity | repeat constructor; exact He].
Qed.

Lemma scope_set_tree (t : list node) : keeps (adds_only (unlinks_within orc cfg))
    (modify (set_tree t)).
Proof. intro w. exists []. split; [reflexivity | constructor]. Qed.

Lemma scope_log (l : level) (msg : string) : keeps (adds_only (unlinks_within orc cfg)) (log l msg).
Proof. apply scope_emit. exact I. Qed.

Lemma scope_glob dir entries pattern : keeps (adds_only (unlinks_within orc cfg))
    (glob orc dir entries pattern).
Proof. unfold glob. repeat keeps_step. apply scope_emit. exact I. Qed.

Lemma scope_unlink y m n :
  retention_target orc cfg [y; m; node_name n] = true -> keeps (adds_only (unlinks_within orc cfg))
      (unlink orc y m n).
Proof.
  intro H. unfold unlink.
  repeat keeps_step; try (apply scope_emit; exact H); apply scope_set_tree.
Qed.

Lemma scope_cleanup_file c tm y m f k :
  cutoff orc cfg = Some c ->
  Glob.fnmatch "[0-9][0-9][0-9][0-9]" y = true ->
  Glob.fnmatch "[0-9][0-9]" m = true ->
  Glob.fnmatch "backup-*.{tar.gz,cfg}" (node_name f) = true ->
  keeps (adds_only (unlinks_within orc cfg)) (cleanup_file orc c tm y m f k).
Proof.
  intros Hc Hy Hm Hf. unfold cleanup_file.
  keeps_rule @keeps_try_except; [ | intro; repeat (first [apply scope_log | keeps_step]) ].
  destruct (embedded_date_str (node_name f)) as [s|] eqn:Es;
    [ | keeps_rule @keeps_bind_raise ].
  apply keeps_bind_ret.
  destruct (Dates.strptime s) as [d|] eqn:Ed;
    [ | keeps_rule @keeps_bind_raise ].
  apply keeps_bind_ret.
  destruct (Dates.instant_lt d c) eqn:Elt; [ | keeps_step ].
  assert (Ht : retention_target orc cfg [y; m; node_name f] = true).
  { unfold retention_target, embedded_date. rewrite Hc, Hy, Hm, Hf, Es, Ed. exact Elt. }
  repeat (first [ apply scope_log | apply (scope_unlink _ _ _ Ht) | keeps_step ]).
Qed.

Lemma scope_cleanup_month c tm y d k :
  cutoff orc cfg = Some c ->
  Glob.fnmatch "[0-9][0-9][0-9][0-9]" y = true ->
  Glob.fnmatch "[0-9][0-9]" (node_name d) = true ->
  keeps (adds_only (unlinks_within orc cfg)) (cleanup_month orc c tm y d k).
Proof.
  intros Hc Hy Hm. unfold cleanup_month.
  destruct (negb (is_dir d)); [keeps_step | ].
  keeps_rule @keeps_bind_value; [apply scope_glob | ].
  intros files w Hfiles. apply glob_value in Hfiles. subst files.
  keeps_rule @keeps_for_fold_in. intros f s Hin.
  apply filter_In in Hin. destruct Hin as [_ Hf].
  apply scope_cleanup_file; assumption.
Qed.

Lemma scope_cleanup_year c tm d k :
  cutoff orc cfg = Some c ->
  Glob.fnmatch "[0-9][0-9][0-9][0-9]" (node_name d) = true ->
  keeps (adds_only (unlinks_within orc cfg)) (cleanup_year orc c tm d k).
Proof.
  intros Hc Hy. unfold cleanup_year.
  destruct (negb (is_dir d)); [keeps_step | ].
  keeps_rule @keeps_bind_value; [apply scope_glob | ].
  intros months w Hmonths. apply glob_value in Hmonths. subst months.
  keeps_rule @keeps_for_fold_in. intros f s Hin.
  apply filter_In in Hin. destruct Hin as [_ Hf].
  apply scope_cleanup_month; assumption.
Qed.

Lemma scope_cleanup_old_backups tm : keeps (adds_only (unlinks_within orc cfg))
    (cleanup_old_backups orc cfg tm).
Proof.
  unfold cleanup_old_backups.
  destruct (cutoff orc cfg) as [c|] eqn:Hc; [ | keeps_rule @keeps_bind_raise ].
  apply keeps_bind_ret.
  keeps_rule @keeps_try_except; [ | intro; repeat (first [apply scope_log | keeps_step]) ].
  unfold cleanup_scan.
  keeps_rule @keeps_bind; [keeps_step | intro t].
  keeps_rule @keeps_bind_value; [apply scope_glob | ].
  intros years w Hyears. apply glob_value in Hyears. subst years.
  keeps_rule @keeps_bind.
  - keeps_rule @keeps_for_fold_in. intros f s Hin.
    apply filter_In in Hin. destruct Hin as [_ Hf].
    apply scope_cleanup_year; assumption.
  - intro. repeat (first [ apply scope_log | keeps_step ]).
Qed.

End RetentionScope.

(** X1: the retention pass removes no backup named as the script names
    them.  In a tree whose entries at the depth of the backup files
    have names that do not end in a closing brace (as every
    [backup-<date>.tar.gz] and [backup-<date>.cfg]), the pass removes
    nothing, whatever the dates and the retention: the tree is what it
    was, and the pass returns 0, or raises [OverflowError] for a cutoff
    that no [datetime] represents. *)
Theorem retention_removes_no_dated_backup
    (orc : env) (cfg : config) (tm : bool) (w : world) :
  dated_names_only (tree w) ->
  tree (snd (cleanup_old_backups orc cfg tm w)) = tree w /\
  (fst (cleanup_old_backups orc cfg tm w) = Ret 0 \/
   fst (cleanup_old_backups orc cfg tm w) = Raise OverflowError).
Proof.
  intro Hnames.
  wp_start (cleanup_old_backups orc cfg tm) w.
  unfold cleanup_old_backups.
  destruct (cutoff orc cfg) as [c|].
  - apply wp_bind. apply wp_ret. cbv beta iota.
    apply wp_try_except.
    pose proof (cleanup_scan_enumerates_nothing orc c tm w Hnames) as Hs.
    unfold wp in Hs |- *.
    destruct (cleanup_scan orc c tm w) as [[n|e] w1]; cbn [fst snd] in *.
    + destruct Hs as [Ht [[= ->] | [e He]]]; [|discriminate He].
      split; [exact Ht | left; reflexivity].
    + destruct Hs as [Ht _]. cbn. split; [exact Ht | left; reflexivity].
  - apply wp_bind. apply wp_raise. cbv beta iota.
    split; [reflexivity | right; reflexivity].
Qed.

Lemma retention_removes_no_dated_backup_witness :
  dated_names_only (tree ex_world) /\
  tree (snd (cleanup_old_backups ex_env ex_cfg false ex_world)) = tree ex_world.
Proof.
  assert (H : dated_names_only (tree ex_world)).
  { intros y m f Hy Hm Hf. cbn in Hy.
    destruct Hy as [<- | []]. cbn in Hm. destruct Hm as [<- | []].
    cbn in Hf. destruct Hf as [<- | [<- | [<- | []]]]; discriminate. }
  split; [exact H | ].
  exact (proj1 (retention_removes_no_dated_backup ex_env ex_cfg false ex_world H)).
Defined.

(** X2: a dry-run retention pass deletes nothing.  With [test_mode]
    set, [cleanup_old_backups] leaves the tree as it is and attempts no
    [unlink], on every tree and whatever fails on the way. *)
Theorem dry_retention_pass_deletes_nothing (orc : env) (cfg : config) (w : world) :
  tree (snd (cleanup_old_backups orc cfg true w)) = tree w /\
  exists evs,
    trace (snd (cleanup_old_backups orc cfg true w)) = evs ++ trace w /\
    Forall (fun e => match e with EvUnlink _ => False | _ => True end) evs.
Proof.
  assert (H : keeps dry_retention (cleanup_old_backups orc cfg true)).
  { keeps_auto dry_retention_leaf. }
  exact (H w).
Qed.

(** X3: what the retention pass may delete.  Every [unlink] that
    [cleanup_old_backups] attempts, on any tree and whatever fails on
    the way, is of a path [<year>/<month>/<file>] whose three parts
    match the patterns of the three loops and whose file name carries
    a date that [strptime] accepts and that lies before the cutoff. *)
Theorem retention_unlinks_only_expired (orc : env) (cfg : config) (tm : bool) (w : world) :
  exists evs,
    trace (snd (cleanup_old_backups orc cfg tm w)) = evs ++ trace w /\
    Forall (unlinks_within orc cfg) evs.
Proof. exact (scope_cleanup_old_backups orc cfg tm w). Qed.

(** X4: which directories the retention pass walks.  The pattern of
    its outer loop matches exactly the names of four digits, that of
    its middle loop exactly the names of two digits. *)
Theorem dated_directory_patterns (name : string) :
  Glob.fnmatch "[0-9][0-9][0-9][0-9]" name = all_digits 4 name /\
  Glob.fnmatch "[0-9][0-9]" name = all_digits 2 name.
Proof.
  split.
  - let t := eval vm_compute in (Glob.tokens "[0-9][0-9][0-9][0-9]") in
    change (Glob.fnmatch "[0-9][0-9][0-9][0-9]" name) with (Glob.matches t name).
    destruct name as [|a [|b [|c [|d [|e r]]]]]; try reflexivity;
      unfold all_digits, PyStr.is_digit;
      cbn -[Nat.leb nat_of_ascii];
      change (nat_of_ascii "0") with 48%nat; change (nat_of_ascii "9") with 57%nat;
      rewrite ?orb_false_r, ?andb_true_r, ?andb_false_r; try reflexivity.
  - let t := eval vm_compute in (Glob.tokens "[0-9][0-9]") in
    change (Glob.fnmatch "[0-9][0-9]" name) with (Glob.matches t name).
    destruct name as [|a [|b [|c r]]]; try reflexivity;
      unfold all_digits, PyStr.is_digit;
      cbn -[Nat.leb nat_of_ascii];
      change (nat_of_ascii "0") with 48%nat; change (nat_of_ascii "9") with 57%nat;
      rewrite ?orb_false_r, ?andb_true_r, ?andb_false_r; try reflexivity.
Qed.

(* ===================================================================== *)
(** * Validation, notification and connection *)
(* ===================================================================== *)



(** what a notification does, case by case *)
Lemma send_macos_notification_run
    (orc : env) (title message : string) (cfg : config) (w : world) :
  exists evs,
    send_macos_notification orc title message cfg w = (Ret tt, fold_right add_event w evs) /\
    Forall notification_event evs /\
    (macos_native cfg = false -> evs = []) /\
    (macos_native cfg = true -> In (EvNotify title message) evs).
Proof.
  unfold send_macos_notification, osascript, try_except, bind, log, emit, modify, answer,
    ret, raise.
  destruct (macos_native cfg); cbn [negb].
  - destruct (ans_osascript orc) as [e|].
    + exists [EvLog WARNING "Failed to send notification: {e}"; EvNotify title message].
      repeat split; [repeat constructor | discriminate | intros _; right; left; reflexivity].
    + exists [EvLog INFO "macOS notification sent"; EvNotify title message].
      repeat split; [repeat constructor | discriminate | intros _; right; left; reflexivity].
  - exists []. repeat split; [constructor | discriminate].
Qed.

Lemma send_macos_notification_returns orc title message cfg :
  returns (send_macos_notification orc title message cfg).
Proof.
  intro w. destruct (send_macos_notification_run orc title message cfg w) as (evs & E & _).
  eexists; eexists; exact E.
Qed.

Lemma connect_ssh_session (orc : env) (cfg : config) (w : world) :
  v_ssh (snd (connect_ssh orc cfg w)) = v_ssh w /\
  match fst (connect_ssh orc cfg w) with
  | Ret _ => ssh_open (snd (connect_ssh orc cfg w)) = true
  | Raise _ => ssh_open (snd (connect_ssh orc cfg w)) = ssh_open w
  end.
Proof.
  unfold connect_ssh, ssh_connect, try_except, bind, log, emit, modify, answer, ret, raise.
  destruct (ans_connect orc) as [e|]; cbn; [destruct e; cbn | ]; split; reflexivity.
Qed.


(** X6: a notification never fails the caller.
    [send_macos_notification] never raises, whatever [osascript] does;
    it changes nothing but the trace, by the attempt and a log line;
    and with [macos_native] off it does nothing at all. *)
Theorem notification_never_fails
    (orc : env) (title message : string) (cfg : config) (w : world) :
  exists evs,
    send_macos_notification orc title message cfg w = (Ret tt, fold_right add_event w evs) /\
    Forall notification_event evs /\
    (macos_native cfg = false -> evs = []) /\
    (macos_native cfg = true -> In (EvNotify title message) evs).
Proof. exact (send_macos_notification_run orc title message cfg w). Qed.

(** X7: [connect_ssh] hides no failure.  When [ssh.connect] raises,
    [connect_ssh] raises that same exception after logging an error,
    and the session is as it was; when it goes through, [connect_ssh]
    returns with the session open. *)
Theorem connect_ssh_reraises (orc : env) (cfg : config) (w : world) :
  match ans_connect orc with
  | Some e =>
      fst (connect_ssh orc cfg w) = Raise e /\
      ssh_open (snd (connect_ssh orc cfg w)) = ssh_open w /\
      exists msg evs,
        trace (snd (connect_ssh orc cfg w)) = EvLog ERROR msg :: evs
  | None =>
      fst (connect_ssh orc cfg w) = Ret tt /\
      ssh_open (snd (connect_ssh orc cfg w)) = true
  end.
Proof.
  unfold connect_ssh, ssh_connect, try_except, bind, log, emit, modify, answer, ret, raise.
  destruct (ans_connect orc) as [e|]; cbn.
  - destruct e; cbn; repeat split; eexists; eexists; reflexivity.
  - split; reflexivity.
Qed.

(** X16: what [download_config] hands over.  When it returns, in test
    mode or not, the directory is the one [mkdtemp] made and it is on
    disk, the batch holds the archive when [tar.gz] is configured and
    nothing otherwise, and every file the batch names is in that
    directory.  When a step fails, the function logs the failure and
    raises. *)
Theorem download_hands_over_what_it_fetched
    (orc : env) (cfg : config) (tm : bool) (w : world) :
  let r := download_config orc cfg tm w in
  match fst r with
  | Ret (batch, d) =>
      d = tmp_name orc /\ temp_exists (snd r) = true /\
      batch = (if listed "tar.gz" (formats cfg)
               then [("tar.gz", path_join d "config.boot.tar.gz")] else []) /\
      batch_on_disk batch (snd r) = true
  | Raise _ =>
      exists evs, trace (snd r) = EvLog ERROR "Failed to download configuration: {e}" :: evs
  end.
Proof.
  cbv zeta. unfold batch_on_disk. unfold_script. run_cases.
  all: try (eexists; reflexivity).
  all: repeat split; try reflexivity.
  all: cbn; rewrite ?String.eqb_refl; try reflexivity.
Qed.

(* ===================================================================== *)
(** * The run as a whole *)
(* ===================================================================== *)

#[local] Instance session_tracked_preorder : PreOrder session_tracked.
Proof.
  split; [intros w H; exact H | intros a b c Hab Hbc H; exact (Hbc (Hab H))].
Qed.

#[local] Instance avoiding_preorder (bad : event -> bool) : PreOrder (avoiding bad).
Proof.
  split.
  - intro w. repeat split; reflexivity.
  - intros a b c (T1 & C1 & P1 & A1) (T2 & C2 & P2 & A2).
    repeat split; try congruence. etransitivity; eassumption.
Qed.

#[local] Instance no_push_preorder : PreOrder no_push.
Proof.
  split.
  - intro w. split; reflexivity.
  - intros a b c (P1 & A1) (P2 & A2).
    split; [congruence | etransitivity; eassumption].
Qed.

Ltac session_leaf := intros ? H; exact H.


Ltac no_push_leaf := intro; split; [reflexivity | trace_leaf].

(** the connection and the assignment of its result to [ssh] *)
Lemma connect_and_assign_tracked {A} (orc : env) (cfg : config) (k : M A) :
  keeps session_tracked k ->
  keeps session_tracked
    (bind (connect_ssh orc cfg) (fun _ => bind (modify (set_v_ssh true)) (fun _ => k))).
Proof.
  intros Hk w. unfold bind at 1.
  destruct (connect_ssh_session orc cfg w) as [Hv Ho].
  destruct (connect_ssh orc cfg w) as [[[]|e] w1]; cbn [fst snd] in *.
  - unfold bind, modify. intros _.
    apply (Hk (set_v_ssh true w1)). cbn. symmetry. exact Ho.
  - intro H. congruence.
Qed.

Ltac session_connect :=
  idtac;
  lazymatch goal with
  | |- keeps _ (bind (connect_ssh _ _) _) => apply connect_and_assign_tracked
  end.

Lemma run_backup_returns (orc : env) (cfg : config) (tm : bool) :
  returns (run_backup orc cfg tm).
Proof.
  unfold run_backup.
  apply returns_bind; [apply returns_modify | intros _].
  apply returns_bind; [apply returns_modify | intros _].
  apply returns_try_finally.
  - apply returns_try_except. intro e.
    apply returns_bind; [apply returns_log | intros _].
    apply returns_bind; [ | intros _; apply returns_ret].
    destruct (on_failure cfg); [apply send_macos_notification_returns | apply returns_ret].
  - apply returns_bind; [apply returns_get | intros ssh].
    apply returns_bind.
    { destruct ssh; [ | apply returns_ret].
      unfold ssh_close. apply returns_bind; [apply returns_modify | intros _].
      apply returns_modify. }
    intros _. apply returns_bind; [apply returns_get | intros [d|]]; [ | apply returns_ret].
    apply returns_bind; [apply returns_get | intros [|]]; [ | apply returns_ret].
    unfold rmtree. apply returns_bind; [apply returns_modify | intros _; apply returns_modify].
Qed.

Lemma ex_env_empty_archive_space : enough_space ex_env_empty_archive.
Proof.
  exists 2500000, 4096. split; [reflexivity | vm_compute; discriminate].
Qed.

(** X8: the session is closed on every way out, and no exception
    escapes.  [run_backup] always returns a boolean: whatever a step
    raises is caught and turned into [False].  A run that starts
    without an open session ends without one: when the connection was
    made, the [finally] block closes it, on success and on every
    failure.  (Closing the session and removing the workspace are
    steps that do not fail here.) *)
Theorem run_backup_returns_and_closes_session
    (orc : env) (cfg : config) (tm : bool) (w : world) :
  ssh_open w = false ->
  exists b w',
    run_backup orc cfg tm w = (Ret b, w') /\ ssh_open w' = false.
Proof.
  intro Hclosed.
  destruct (run_backup_returns orc cfg tm w) as (b & w' & E).
  exists b, w'. split; [exact E | ].
  replace w' with (snd (run_backup orc cfg tm w)) by (rewrite E; reflexivity).
  clear E b w'.
  unfold run_backup.
  unfold bind at 1. unfold modify at 1. cbv beta iota.
  unfold bind at 1. unfold modify at 1. cbv beta iota.
  lazymatch goal with |- ssh_open (snd (@try_finally _ ?body ?fin ?w0)) = false =>
    assert (Hbody : keeps session_tracked body);
    [ | specialize (Hbody w0 (eq_sym Hclosed)); unfold try_finally;
        destruct (body w0) as [r w1]; cbn [snd] in Hbody ]
  end.
  { keeps_auto_with session_connect session_leaf. }
  unfold bind, get, ssh_close, rmtree, emit, modify, ret.
  destruct (v_ssh w1) eqn:Hv; cbn;
    destruct (v_temp_dir w1); cbn;
    try destruct (temp_exists w1); cbn; congruence.
Qed.

Lemma run_backup_returns_and_closes_session_witness :
  ssh_open ex_world = false /\
  exists b w',
    run_backup ex_env_transfer_fails ex_cfg false ex_world = (Ret b, w') /\
    ssh_open w' = false.
Proof.
  split; [reflexivity | ].
  exact (run_backup_returns_and_closes_session ex_env_transfer_fails ex_cfg false ex_world
           eq_refl).
Defined.

(** X9: an unreachable router.  When [ssh.connect] fails, in a dry run
    or not, [run_backup] returns [False] (exit status 1) after logging
    the failure; no workspace is made, nothing is fetched, stored,
    committed, pushed or pruned, and the repository tree, the commits
    and the session state are what they were. *)
Theorem connection_failure_aborts
    (orc : env) (cfg : config) (tm : bool) (w : world) (e : exn) :
  ans_connect orc = Some e ->
  fst (run_backup orc cfg tm w) = Ret false /\
  fst (main_run orc cfg tm w) = 1 /\
  tree (snd (run_backup orc cfg tm w)) = tree w /\
  commits (snd (run_backup orc cfg tm w)) = commits w /\
  temp_exists (snd (run_backup orc cfg tm w)) = temp_exists w /\
  ssh_open (snd (run_backup orc cfg tm w)) = ssh_open w /\
  exists evs,
    trace (snd (run_backup orc cfg tm w)) = evs ++ trace w /\
    Forall (fun ev => past_connection ev = false) evs /\
    In (EvLog ERROR "Backup failed: {e}") evs.
Proof.
  intro Hconn. unfold main_run.
  wp_start (run_backup orc cfg tm) w.
  wp_run.
  all: repeat (split; [reflexivity | ]).
  all: eexists; split; [trace_grew | split; [no_such_event | in_trace]].
Qed.

Lemma connection_failure_aborts_witness :
  ans_connect (with_ans_connect (Some SSHException) ex_env) = Some SSHException /\
  fst (run_backup (with_ans_connect (Some SSHException) ex_env) ex_cfg false ex_world)
    = Ret false.
Proof.
  split; [reflexivity | ].
  exact (proj1 (connection_failure_aborts (with_ans_connect (Some SSHException) ex_env)
                  ex_cfg false ex_world SSHException eq_refl)).
Defined.

(** X10: nothing unvalidated is stored.  When the archive that was
    transferred is empty or does not open as a gzipped tar, the run
    fails validation: [run_backup] returns [False] (exit status 1), the
    validation error is logged, no step that stores, commits, pushes or
    prunes is attempted, the tree and the commits are what they were,
    and on this way out the session is closed and the temporary
    workspace removed. *)
Theorem invalid_archive_is_not_stored
    (orc : env) (cfg : config) (tm : bool) (w : world) (d : file_data) :
  ans_mkdir_root orc = None -> enough_space orc ->
  ans_connect orc = None -> ans_mkdtemp orc = None ->
  listed "tar.gz" (formats cfg) = true ->
  ans_exec orc = None -> ans_sftp_get orc = inr d ->
  fd_size d = 0 \/ fd_targz d = false ->
  fst (run_backup orc cfg tm w) = Ret false /\
  fst (main_run orc cfg tm w) = 1 /\
  tree (snd (run_backup orc cfg tm w)) = tree w /\
  commits (snd (run_backup orc cfg tm w)) = commits w /\
  temp_exists (snd (run_backup orc cfg tm w)) = false /\
  ssh_open (snd (run_backup orc cfg tm w)) = false /\
  exists evs,
    trace (snd (run_backup orc cfg tm w)) = evs ++ trace w /\
    Forall (fun ev => persistence_step ev = false) evs /\
    In (EvLog ERROR "Validation failed: {e}") evs /\
    In (EvRmtree (tmp_name orc)) evs.
Proof.
  intros Hroot (bavail & frsize & Hstat & Hspace) Hconn Htmp Hfmt Hexec Hsftp Hbad.
  apply Z.ltb_ge in Hspace. unfold main_run.
  wp_start (run_backup orc cfg tm) w.
  destruct Hbad as [Hsize | Htar]; [apply Z.eqb_eq in Hsize | ]; wp_run.
  all: repeat (split; [reflexivity | ]).
  all: eexists; split; [trace_grew | split; [no_such_event | split; in_trace]].
Qed.

Lemma invalid_archive_is_not_stored_witness :
  fd_size ex_empty_archive = 0 /\
  fst (run_backup ex_env_empty_archive ex_cfg false ex_world) = Ret false.
Proof.
  split; [reflexivity | ].
  exact (proj1 (invalid_archive_is_not_stored ex_env_empty_archive ex_cfg false
                  ex_world ex_empty_archive
                  eq_refl ex_env_empty_archive_space eq_refl eq_refl eq_refl
                  eq_refl eq_refl (or_introl eq_refl))).
Defined.


(** X12: a configuration without [auto_push] never reaches for the
    remote.  Whatever the run meets, [run_backup] neither looks the
    remote up nor pushes, and the count of pushes is what it was. *)
Theorem local_only_run_never_pushes
    (orc : env) (cfg : config) (tm : bool) (w : world) :
  auto_push cfg = false ->
  pushes (snd (run_backup orc cfg tm w)) = pushes w /\
  exists evs,
    trace (snd (run_backup orc cfg tm w)) = evs ++ trace w /\
    Forall (fun e => reaches_remote e = false) evs.
Proof.
  intro Hauto.
  assert (H : keeps no_push (run_backup orc cfg tm)).
  { keeps_auto_with
      ltac:(idtac; lazymatch goal with
            | |- keeps _ (if auto_push cfg then _ else _) => rewrite Hauto
            end)
      no_push_leaf. }
  exact (H w).
Qed.

Lemma local_only_run_never_pushes_witness :
  auto_push ex_cfg_local = false /\
  pushes (snd (run_backup ex_env ex_cfg_local false ex_world)) = pushes ex_world.
Proof.
  split; [reflexivity | ].
  exact (proj1 (local_only_run_never_pushes ex_env ex_cfg_local false ex_world eq_refl)).
Defined.

(* ===================================================================== *)
(** * Dates in names *)
(* ===================================================================== *)

Lemma pad4_spells_year (y : Z) : 1 <= y <= 9999 -> spells_year y (PyStr.pad4 y) = true.
Proof.
  intro Hy.
  assert (Hall : forallb (fun n => spells_year (Z.of_nat n) (PyStr.pad4 (Z.of_nat n)))
                   (seq 1 (Z.to_nat 9999)) = true) by (vm_compute; reflexivity).
  rewrite forallb_forall in Hall.
  specialize (Hall (Z.to_nat y)).
  rewrite Z2Nat.id in Hall by lia.
  apply Hall. apply in_seq. lia.
Qed.

Lemma month_alts_pad2 (m : Z) (rest : string) :
  1 <= m <= 12 ->
  exists tl, Dates.month_alts (PyStr.pad2 m ++ String "-" rest) = (m, String "-" rest) :: tl.
Proof.
  intro Hm.
  assert (H : m = 1 \/ m = 2 \/ m = 3 \/ m = 4 \/ m = 5 \/ m = 6 \/ m = 7 \/ m = 8 \/
              m = 9 \/ m = 10 \/ m = 11 \/ m = 12) by lia.
  repeat (destruct H as [-> | H]); try subst m; eexists; reflexivity.
Qed.

Lemma day_alts_pad2 (d : Z) :
  1 <= d <= 31 -> exists tl, Dates.day_alts (PyStr.pad2 d) = (d, EmptyString) :: tl.
Proof.
  intro Hd.
  assert (Hall : forallb
                   (fun n => match Dates.day_alts (PyStr.pad2 (Z.of_nat n)) with
                             | (v, EmptyString) :: _ => v =? Z.of_nat n
                             | _ => false
                             end) (seq 1 (Z.to_nat 31)) = true) by (vm_compute; reflexivity).
  rewrite forallb_forall in Hall.
  specialize (Hall (Z.to_nat d)).
  rewrite Z2Nat.id in Hall by lia.
  assert (Hin : In (Z.to_nat d) (seq 1 (Z.to_nat 31))) by (apply in_seq; lia).
  specialize (Hall Hin).
  destruct (Dates.day_alts (PyStr.pad2 d)) as [|[v [|? ?]] tl]; try discriminate.
  apply Z.eqb_eq in Hall. subst v. exists tl. reflexivity.
Qed.

Lemma valid_date_bounds (y m d : Z) :
  Dates.valid_date y m d = true -> 1 <= y <= 9999 /\ 1 <= m <= 12 /\ 1 <= d <= 31.
Proof.
  unfold Dates.valid_date, Dates.MINYEAR, Dates.MAXYEAR. intro H.
  repeat (apply andb_prop in H; destruct H as [H ?]).
  repeat match goal with H : (_ <=? _) = true |- _ => apply Z.leb_le in H end.
  assert (Dates.days_in_month y m <= 31).
  { unfold Dates.days_in_month.
    repeat match goal with |- context [if ?b then _ else _] => destruct b end; lia. }
  lia.
Qed.

Lemma strptime_strftime_ymd (t : Dates.datetime) :
  Dates.valid_date (Dates.year t) (Dates.month t) (Dates.day t) = true ->
  Dates.strptime (Dates.strftime_ymd t)
  = Some (Dates.midnight (Dates.year t) (Dates.month t) (Dates.day t)).
Proof.
  destruct t as [y m d us]. cbn [Dates.year Dates.month Dates.day]. intro Hv.
  destruct (valid_date_bounds _ _ _ Hv) as (Hy & Hm & Hd).
  unfold Dates.strftime_ymd. cbn [Dates.year Dates.month Dates.day].
  pose proof (pad4_spells_year y Hy) as Hs.
  destruct (PyStr.pad4 y) as [|a [|b [|c [|e [|? ?]]]]]; try discriminate.
  cbn [spells_year] in Hs.
  apply andb_prop in Hs. destruct Hs as [Hs Hval].
  apply Z.eqb_eq in Hval.
  cbn [append]. unfold Dates.strptime. rewrite Hs.
  destruct (month_alts_pad2 m (PyStr.pad2 d) Hm) as (tl & Em).
  change ("-" ++ PyStr.pad2 d)%string with (String "-" (PyStr.pad2 d)).
  rewrite Em. cbn [Dates.first_some snd fst].
  destruct (day_alts_pad2 d Hd) as (tl' & Ed). rewrite Ed.
  cbn [PyStr.is_empty andb]. rewrite Hval, Hv. reflexivity.
Qed.

Lemma pad2_plain (n : Z) : 1 <= n <= 31 -> plain_pair (PyStr.pad2 n) = true.
Proof.
  intro Hn.
  assert (Hall : forallb (fun k => plain_pair (PyStr.pad2 (Z.of_nat k)))
                   (seq 1 (Z.to_nat 31)) = true) by (vm_compute; reflexivity).
  rewrite forallb_forall in Hall.
  specialize (Hall (Z.to_nat n)).
  rewrite Z2Nat.id in Hall by lia.
  apply Hall. apply in_seq. lia.
Qed.

(** the text of a day of the calendar: ten characters, none of them a
    dot or a [b] *)
Lemma strftime_ymd_plain (t : Dates.datetime) :
  Dates.valid_date (Dates.year t) (Dates.month t) (Dates.day t) = true ->
  String.length (Dates.strftime_ymd t) = 10%nat /\
  lacks "." (Dates.strftime_ymd t) = true /\
  lacks "b" (Dates.strftime_ymd t) = true.
Proof.
  intro Hv. destruct (valid_date_bounds _ _ _ Hv) as (Hy & Hm & Hd).
  unfold Dates.strftime_ymd.
  pose proof (pad4_spells_year _ Hy) as Hs.
  pose proof (pad2_plain (Dates.month t) ltac:(lia)) as Hpm.
  pose proof (pad2_plain (Dates.day t) ltac:(lia)) as Hpd.
  destruct (PyStr.pad4 (Dates.year t)) as [|a [|b [|c [|e [|? ?]]]]]; try discriminate.
  cbn [spells_year] in Hs.
  do 4 (apply andb_prop in Hs; destruct Hs as [Hs ?]).
  unfold plain_pair in Hpm, Hpd.
  repeat (apply andb_prop in Hpm; destruct Hpm as [Hpm ?]).
  repeat (apply andb_prop in Hpd; destruct Hpd as [Hpd ?]).
  apply Nat.eqb_eq in Hpm, Hpd.
  cbn [append String.length lacks].
  rewrite !str_length_app, !lacks_app. cbn [String.length lacks].
  rewrite Hpm, Hpd.
  repeat match goal with
         | H : PyStr.is_digit ?x = true |- _ =>
             rewrite (digit_differs x "." H eq_refl), (digit_differs x "b" H eq_refl);
             clear H
         end.
  repeat match goal with H : lacks _ _ = true |- _ => rewrite H; clear H end.
  repeat split.
Qed.

(** X13: [strptime] reads back what [strftime] wrote.  For every day
    of the calendar, parsing the ['%Y-%m-%d'] text of that day gives
    the midnight of that day. *)
Theorem strptime_reads_strftime (t : Dates.datetime) :
  Dates.valid_date (Dates.year t) (Dates.month t) (Dates.day t) = true ->
  Dates.strptime (Dates.strftime_ymd t)
  = Some (Dates.midnight (Dates.year t) (Dates.month t) (Dates.day t)).
Proof. exact (strptime_strftime_ymd t). Qed.

Lemma strptime_reads_strftime_witness :
  Dates.valid_date (Dates.year ex_now) (Dates.month ex_now) (Dates.day ex_now) = true /\
  Dates.strptime (Dates.strftime_ymd ex_now) = Some (Dates.midnight 2026 11 4).
Proof.
  split; [reflexivity | ].
  exact (strptime_reads_strftime ex_now eq_refl).
Defined.

(** X14: the name [save_to_repo] gives a backup is one the retention
    pass reads as that day.  For both formats the script knows, the
    date that [cleanup_old_backups] extracts from
    [backup-<date>.<fmt>] and parses is the midnight of the day the
    name was made from. *)
Theorem saved_name_carries_its_day (t : Dates.datetime) (fmt : string) :
  Dates.valid_date (Dates.year t) (Dates.month t) (Dates.day t) = true ->
  fmt = "tar.gz" \/ fmt = "cfg" ->
  embedded_date ("backup-" ++ Dates.strftime_ymd t ++ "." ++ fmt)
  = Some (Dates.midnight (Dates.year t) (Dates.month t) (Dates.day t)).
Proof.
  intros Hv Hfmt.
  destruct (strftime_ymd_plain t Hv) as (Hlen & Hdot & Hb).
  pose proof (strptime_strftime_ymd t Hv) as Hparse.
  unfold embedded_date, embedded_date_str.
  set (D := Dates.strftime_ymd t) in *. clearbody D.
  destruct Hfmt as [-> | ->].
  - replace ("backup-" ++ D ++ "." ++ "tar.gz")%string
      with (("backup-" ++ D ++ ".tar") ++ String "." "gz")%string
      by (cbn [append]; rewrite ?str_app_assoc; reflexivity).
    unfold PyStr.stem. rewrite before_last_app by reflexivity.
    rewrite !str_length_app. cbn [String.length]. rewrite Hlen.
    cbn [Nat.ltb Nat.leb Nat.add Nat.sub andb].
    rewrite split_after_prefix by (rewrite lacks_app, Hb; reflexivity).
    unfold PyStr.rsplit1_head.
    change (D ++ ".tar")%string with (D ++ String "." "tar")%string.
    rewrite before_last_app by reflexivity. exact Hparse.
  - replace ("backup-" ++ D ++ "." ++ "cfg")%string
      with (("backup-" ++ D) ++ String "." "cfg")%string
      by (cbn [append]; rewrite ?str_app_assoc; reflexivity).
    unfold PyStr.stem. rewrite before_last_app by reflexivity.
    rewrite !str_length_app. cbn [String.length]. rewrite Hlen.
    cbn [Nat.ltb Nat.leb Nat.add Nat.sub andb].
    rewrite split_after_prefix by exact Hb.
    unfold PyStr.rsplit1_head. rewrite (before_last_lacks _ _ Hdot). exact Hparse.
Qed.

Lemma saved_name_carries_its_day_witness :
  Dates.valid_date (Dates.year ex_now) (Dates.month ex_now) (Dates.day ex_now) = true /\
  embedded_date "backup-2026-11-04.tar.gz" = Some (Dates.midnight 2026 11 4).
Proof.
  split; [reflexivity | ].
  exact (saved_name_carries_its_day ex_now "tar.gz" eq_refl (or_introl eq_refl)).
Defined.

(* ===================================================================== *)
(** * Saving into the repository *)
(* ===================================================================== *)

Lemma names_kept_refl c : names_kept c c.
Proof. intros f H. exact H. Qed.

Lemma dirs_kept_refl (E : list node -> list node -> Prop) :
  (forall c, E c c) -> forall c, dirs_kept E c c.
Proof. intros HE c n d H. exists d. split; [exact H | apply HE]. Qed.

Lemma names_kept_trans a b c : names_kept a b -> names_kept b c -> names_kept a c.
Proof. intros H1 H2 f H. apply H2, H1, H. Qed.

Lemma dirs_kept_trans (E : list node -> list node -> Prop) :
  (forall a b c, E a b -> E b c -> E a c) ->
  forall a b c, dirs_kept E a b -> dirs_kept E b c -> dirs_kept E a c.
Proof.
  intros HE a b c H1 H2 n d H.
  destruct (H1 n d H) as (d2 & F2 & E2).
  destruct (H2 n d2 F2) as (d3 & F3 & E3).
  exists d3. split; [exact F3 | eapply HE; eassumption].
Qed.

#[local] Instance entries_kept_preorder : PreOrder entries_kept.
Proof.
  split.
  - intro w. apply dirs_kept_refl, dirs_kept_refl, names_kept_refl.
  - intros a b c. apply dirs_kept_trans, dirs_kept_trans, names_kept_trans.
Qed.

(** rewriting one directory of a listing keeps every directory *)
Lemma with_dir_keeps (E : list node -> list node -> Prop) name absent k :
  (forall c, E c c) ->
  (forall c c2, k c = Some c2 -> E c c2) ->
  forall l l', with_dir name absent k l = Some l' -> dirs_kept E l l'.
Proof.
  intros Hrefl Hk. induction l as [|x r IH]; intros l' H n d Hf.
  - discriminate.
  - destruct x as [s | s c]; cbn [with_dir find_dir] in *.
    + destruct (String.eqb s name) eqn:Esn; [discriminate | ].
      destruct (with_dir name absent k r) as [r'|] eqn:Er; [ | discriminate].
      injection H as <-. cbn [find_dir].
      destruct (String.eqb s n); [discriminate | ].
      exact (IH r' eq_refl n d Hf).
    + destruct (String.eqb s name) eqn:Esn.
      * destruct (k c) as [c2|] eqn:Ek; [ | discriminate].
        injection H as <-. cbn [find_dir].
        destruct (String.eqb s n).
        -- injection Hf as Hcd. subst d. exists c2. split; [reflexivity | apply Hk, Ek].
        -- exists d. split; [exact Hf | apply Hrefl].
      * destruct (with_dir name absent k r) as [r'|] eqn:Er; [ | discriminate].
        injection H as <-. cbn [find_dir].
        destruct (String.eqb s n).
        -- injection Hf as Hcd. subst d. exists c. split; [reflexivity | apply Hrefl].
        -- exact (IH r' eq_refl n d Hf).
Qed.

(** with nothing to put where the directory is absent, a rewrite that
    went through found the directory and rewrote it *)
Lemma with_dir_found name k :
  forall l l', with_dir name None k l = Some l' ->
  exists c c2, find_dir name l = Some c /\ k c = Some c2 /\ find_dir name l' = Some c2.
Proof.
  induction l as [|x r IH]; intros l' H.
  - discriminate.
  - destruct x as [s | s c]; cbn [with_dir find_dir] in *.
    + destruct (String.eqb s name) eqn:Esn; [discriminate | ].
      destruct (with_dir name None k r) as [r'|] eqn:Er; [ | discriminate].
      injection H as <-. cbn [find_dir]. rewrite Esn. exact (IH r' eq_refl).
    + destruct (String.eqb s name) eqn:Esn.
      * destruct (k c) as [c2|] eqn:Ek; [ | discriminate].
        injection H as <-. cbn [find_dir]. rewrite Esn.
        exists c, c2. split; [reflexivity | split; [exact Ek | reflexivity]].
      * destruct (with_dir name None k r) as [r'|] eqn:Er; [ | discriminate].
        injection H as <-. cbn [find_dir]. rewrite Esn. exact (IH r' eq_refl).
Qed.

Lemma put_file_keeps f l : names_kept l (put_file f l).
Proof.
  intros g H. unfold put_file.
  destruct (existsb _ l); [exact H | ].
  unfold has_name in *. rewrite existsb_app, H. reflexivity.
Qed.

Lemma put_file_has f l : has_name f (put_file f l) = true.
Proof.
  unfold put_file, has_name.
  destruct (existsb (fun n => String.eqb (node_name n) f) l) eqn:E; [exact E | ].
  rewrite existsb_app. cbn. rewrite String.eqb_refl. apply orb_true_r.
Qed.

Lemma tree_mkdirs_keeps y m t t' :
  tree_mkdirs y m t = Some t' -> dirs_kept (dirs_kept names_kept) t t'.
Proof.
  apply with_dir_keeps.
  - apply dirs_kept_refl, names_kept_refl.
  - apply with_dir_keeps.
    + apply names_kept_refl.
    + intros c c2 [= <-]. apply names_kept_refl.
Qed.

Lemma tree_put_keeps y m f t t' :
  tree_put y m f t = Some t' -> dirs_kept (dirs_kept names_kept) t t'.
Proof.
  apply with_dir_keeps.
  - apply dirs_kept_refl, names_kept_refl.
  - apply with_dir_keeps.
    + apply names_kept_refl.
    + intros c c2 [= <-]. apply put_file_keeps.
Qed.

Lemma tree_put_has y m f t t' :
  tree_put y m f t = Some t' -> has_entry [y; m; f] t' = true.
Proof.
  intro H. unfold tree_put in H.
  apply with_dir_found in H. destruct H as (c & c2 & _ & Hk & Hf).
  apply with_dir_found in Hk. destruct Hk as (d & d2 & _ & [= <-] & Hf2).
  cbn [has_entry]. rewrite Hf, Hf2. apply put_file_has.
Qed.

Lemma entries_kept_has (w w' : world) (path : list string) :
  entries_kept w w' -> has_entry path (tree w) = true -> has_entry path (tree w') = true.
Proof.
  intros H. destruct path as [|y [|m [|f [|? ?]]]]; try discriminate.
  cbn [has_entry].
  destruct (find_dir y (tree w)) as [c|] eqn:Ey; [ | discriminate].
  destruct (H y c Ey) as (c2 & -> & Hc).
  destruct (find_dir m c) as [d|] eqn:Em; [ | discriminate].
  destruct (Hc m d Em) as (d2 & -> & Hd).
  apply Hd.
Qed.

Lemma entries_kept_same (w w' : world) : tree w' = tree w -> entries_kept w w'.
Proof.
  intro H. unfold entries_kept. rewrite H.
  apply dirs_kept_refl, dirs_kept_refl, names_kept_refl.
Qed.

Section Saving.

Variable orc : env.

Lemma entries_kept_emit (e : event) : keeps entries_kept (emit e).
Proof. intro w. apply entries_kept_same. reflexivity. Qed.

Lemma mkdir_date_keeps_entries y m : keeps entries_kept (mkdir_date orc y m).
Proof.
  intro w. unfold mkdir_date, bind, emit, modify, answer, get, ret, raise.
  destruct (ans_mkdir_date orc); cbn [fst snd].
  - apply entries_kept_same. reflexivity.
  - cbn [tree add_event].
    destruct (tree_mkdirs y m (tree w)) as [t'|] eqn:E; cbn [fst snd].
    + apply (tree_mkdirs_keeps _ _ _ _ E).
    + apply entries_kept_same. reflexivity.
Qed.

(** one copy: nothing is lost, and when it returns the file is there *)
Lemma copy2_spec src y m f (w : world) :
  entries_kept w (snd (copy2 orc src y m f w)) /\
  (forall u, fst (copy2 orc src y m f w) = Ret u ->
             has_entry [y; m; f] (tree (snd (copy2 orc src y m f w))) = true).
Proof.
  unfold copy2, path_exists, bind, emit, modify, answer, get, ret, raise.
  destruct (ans_copy orc); cbn [fst snd].
  - split; [apply entries_kept_same; reflexivity | discriminate].
  - cbn [tree temp_files add_event].
    destruct (lookup src (temp_files w)); cbn [fst snd tree add_event].
    + destruct (tree_put y m f (tree w)) as [t'|] eqn:E; cbn [fst snd].
      * split; [apply (tree_put_keeps _ _ _ _ _ E) | intros u _; apply (tree_put_has _ _ _ _ _ E)].
      * split; [apply entries_kept_same; reflexivity | discriminate].
    + split; [apply entries_kept_same; reflexivity | discriminate].
Qed.

End Saving.

Section SavingLoop.

Variable orc : env.

Lemma save_one_spec item saved (w : world) :
  entries_kept w (snd (save_one orc item saved w)) /\
  (forall out, fst (save_one orc item saved w) = Ret out ->
     out = saved ++ [dest_path orc item] /\
     has_entry (dest_path orc item) (tree (snd (save_one orc item saved w))) = true).
Proof.
  unfold save_one. cbv zeta.
  set (y := PyStr.str_int (Dates.year (now orc))).
  set (m := PyStr.pad2 (Dates.month (now orc))).
  set (dest := ("backup-" ++ Dates.strftime_ymd (now orc) ++ "." ++ fst item)%string).
  destruct (copy2_spec orc (snd item) y m dest w) as [Hk Hs].
  unfold bind, log, emit, modify, ret.
  destruct (copy2 orc (snd item) y m dest w) as [[u|e] w1]; cbn [fst snd] in *.
  - split; [exact Hk | ].
    intros out [= <-]. split; [reflexivity | exact (Hs u eq_refl)].
  - split; [exact Hk | discriminate].
Qed.

Lemma save_loop_spec batch : forall saved (w : world),
  entries_kept w (snd (for_fold batch (save_one orc) saved w)) /\
  (forall out, fst (for_fold batch (save_one orc) saved w) = Ret out ->
     out = saved ++ map (dest_path orc) batch /\
     (Forall (fun p => has_entry p (tree w) = true) saved ->
      Forall (fun p => has_entry p (tree (snd (for_fold batch (save_one orc) saved w))) = true)
        out)).
Proof.
  induction batch as [|item rest IH]; intros saved w; cbn [for_fold map].
  - split; [reflexivity | ].
    intros out [= <-]. rewrite app_nil_r. split; [reflexivity | exact (fun H => H)].
  - destruct (save_one_spec item saved w) as [Hk Hs].
    unfold bind.
    destruct (save_one orc item saved w) as [[s1|e] w1]; cbn [fst snd] in *.
    + destruct (Hs s1 eq_refl) as [-> Hnew].
      destruct (IH (saved ++ [dest_path orc item]) w1) as [Hk2 Hs2].
      split; [etransitivity; eassumption | ].
      intros out Hout. destruct (Hs2 out Hout) as [-> Hall].
      split; [rewrite <- app_assoc; reflexivity | ].
      intro Hsaved. apply Hall. apply Forall_app. split.
      * eapply Forall_impl; [ | exact Hsaved].
        intros p Hp. exact (entries_kept_has _ _ p Hk Hp).
      * constructor; [exact Hnew | constructor].
    + split; [exact Hk | discriminate].
Qed.

Lemma save_to_repo_spec batch cfg tm (w : world) :
  entries_kept w (snd (save_to_repo orc batch cfg tm w)) /\
  (forall saved, fst (save_to_repo orc batch cfg tm w) = Ret saved ->
     saved = map (dest_path orc) batch /\
     Forall (fun p => has_entry p (tree (snd (save_to_repo orc batch cfg tm w))) = true)
       saved).
Proof.
  unfold save_to_repo. cbv zeta.
  pose proof (mkdir_date_keeps_entries orc (PyStr.str_int (Dates.year (now orc)))
                (PyStr.pad2 (Dates.month (now orc))) w) as Hk.
  change (for_fold batch _ []) with (for_fold batch (save_one orc) []).
  unfold bind, log, emit, modify, ret.
  destruct (mkdir_date orc _ _ w) as [[u|e] w1]; cbn [fst snd] in *;
    [ | split; [exact Hk | discriminate] ].
  destruct (save_loop_spec batch [] w1) as [Hk2 Hs2].
  destruct (for_fold batch (save_one orc) [] w1) as [[s|e] w2]; cbn [fst snd] in *.
  - split; [etransitivity; eassumption | ].
    intros saved [= <-]. destruct (Hs2 s eq_refl) as [-> Hall].
    split; [reflexivity | ]. apply Hall. constructor.
  - split; [etransitivity; eassumption | discriminate].
Qed.

End SavingLoop.

(** X15: what [save_to_repo] does to the repository.  Whatever the
    outcome, and with [test_mode] set or not, every entry
    [<year>/<month>/<name>] that was in the tree is still there.  When
    the function returns, its result lists, in the order of the batch,
    the path [<year>/<month>/backup-<date>.<fmt>] of each item, and
    each of these paths exists. *)
Theorem save_to_repo_adds_the_batch
    (orc : env) (batch : list (string * string)) (cfg : config) (tm : bool) (w : world) :
  (forall path, has_entry path (tree w) = true ->
                has_entry path (tree (snd (save_to_repo orc batch cfg tm w))) = true) /\
  (forall saved, fst (save_to_repo orc batch cfg tm w) = Ret saved ->
     saved = map (dest_path orc) batch /\
     Forall (fun p => has_entry p (tree (snd (save_to_repo orc batch cfg tm w))) = true)
       saved).
Proof.
  destruct (save_to_repo_spec orc batch cfg tm w) as [Hk Hs].
  split; [ | exact Hs].
  intros path. apply entries_kept_has. exact Hk.
Qed.
